(** * Reconciler control core: status transition, component runner, REST handlers

  A shallow embedding of three source files of the reconciler:
  - the cluster status transition (package [service], type
    [ClusterStatusTransition]), module [Transition];
  - the component runner (package [service], type [runner]), module [Runner];
  - the REST handlers of [cmd/service/start/cmd.go], module [Cmd].

  Go code is embedded with explicit state passing.  Collaborators that are
  Go interfaces (inventory, reconciliation repository, chart provider,
  Kubernetes client, status updater, hooks) are records of functions over
  an abstract external state, so every statement holds for every
  implementation of the interface. *)

From Stdlib Require Import ZArith String Ascii List Lia Bool.
From stdpp Require Import base option list strings gmap pretty.
Import ListNotations.

Open Scope string_scope.
Open Scope Z_scope.

(** ** Go values used by all three files *)
Module Go.

(** The line feed written as [\n] in the Go sources. *)
Definition nl : string := String (ascii_of_nat 10) EmptyString.

(** Go [error] values, by the concrete types the code distinguishes.
    [withMessage] is what [errors.Wrap(cause, msg)] of pkg/errors builds;
    [Unrecoverable], [retry_Error] are the two error types of retry-go;
    [context_error] is what [ctx.Err()] yields. *)
#[warnings="-register-all"]
Inductive error : Type :=
| errorString (msg : string)
| EntityNotFoundError (msg : string)
| DuplicateClusterReconciliationError (msg : string)
| withMessage (cause : error) (msg : string)
| Unrecoverable (cause : error)
| retry_Error (errs : list error)
| context_error (msg : string).

(** [strings.Join]. *)
Fixpoint Join (l : list string) (sep : string) : string :=
  match l with
  | [] => ""
  | [s] => s
  | s :: rest => s +:+ sep +:+ Join rest sep
  end.

(** Numbers the messages of a [retry.Error] from [first] on: [#1: ...]. *)
Fixpoint logWithNumber (first : nat) (msgs : list string) : list string :=
  match msgs with
  | [] => []
  | m :: rest => ("#" +:+ pretty first +:+ ": " +:+ m) :: logWithNumber (S first) rest
  end.

(** The [Error()] method. *)
Fixpoint Error (e : error) : string :=
  match e with
  | errorString msg => msg
  | EntityNotFoundError msg => msg
  | DuplicateClusterReconciliationError msg => msg
  | withMessage cause msg => msg +:+ ": " +:+ Error cause
  | Unrecoverable cause => Error cause
  | retry_Error errs =>
      "All attempts fail:" +:+ nl +:+ Join (logWithNumber 1 (map Error errs)) nl
  | context_error msg => msg
  end.

(** [errors.Wrap(err, message)]. *)
Definition errors_Wrap (err : error) (message : string) : error :=
  withMessage err message.

(** [repository.IsNotFoundError]: the error is of the NotFound kind, the
    repository's entity-not-found error. *)
Definition IsNotFoundError (err : error) : bool :=
  match err with
  | EntityNotFoundError _ => true
  | _ => false
  end.

(** [reconciliation.IsDuplicateClusterReconciliationError]. *)
Definition IsDuplicateClusterReconciliationError (err : error) : bool :=
  match err with
  | DuplicateClusterReconciliationError _ => true
  | _ => false
  end.

(** [retry.IsRecoverable]. *)
Definition IsRecoverable (err : error) : bool :=
  match err with
  | Unrecoverable _ => false
  | _ => true
  end.

(** [fmt.Sprintf] for the verbs the sources use: [%s] and [%d] take the
    next argument (already rendered), [%%] is a percent sign.  The sources
    always pass as many arguments as the format has verbs. *)
Fixpoint Sprintf (format : string) (args : list string) : string :=
  match format with
  | EmptyString => EmptyString
  | String c rest =>
      if Ascii.eqb c "%"%char then
        match rest with
        | String v rest' =>
            if Ascii.eqb v "s"%char || Ascii.eqb v "d"%char then
              match args with
              | a :: args' => a +:+ Sprintf rest' args'
              | [] => "%!" +:+ String v "(MISSING)" +:+ Sprintf rest' []
              end
            else if Ascii.eqb v "%"%char then String "%"%char (Sprintf rest' args)
            else "%!" +:+ String v "(NOVERB)" +:+ Sprintf rest' args
        | EmptyString => "%!(NOVERB)"
        end
      else String c (Sprintf rest args)
  end.

(** Go's [fmt.Stringer]: how a value prints under [%s]. *)
Class Stringer (A : Type) := String_ : A -> string.

#[export] Instance string_Stringer : Stringer string := fun s => s.
#[export] Instance int_Stringer : Stringer Z := fun z => pretty z.
#[export] Instance len_Stringer : Stringer nat := fun n => pretty n.
#[export] Instance error_Stringer : Stringer error := Error.

(** [uint(x)] of an [int] on a 64-bit platform. *)
Definition uint (x : Z) : Z := x mod 2 ^ 64.

(** zap log entries: level and message. *)
Inductive Level := DebugLevel | InfoLevel | WarnLevel | ErrorLevel.

Record LogEntry := { level : Level; message : string }.

End Go.
Export Go.

(** ** Entities of pkg/model and pkg/cluster read by the sources *)
Module model.

(** Modelled from the spec: the values of [model.Status] (the declaration
    is in pkg/model, not among the sources); the spec's data model lists
    the cluster statuses. *)
Inductive Status :=
| ClusterStatusReconcilable
| ClusterStatusReconciling
| ClusterStatusReady
| ClusterStatusError
| ClusterStatusDeleting
| ClusterStatusDeleted.

#[export] Instance Status_eq_dec : EqDecision Status.
Proof. solve_decision. Defined.

(** The entity records, with the fields the sources read. *)
Record ClusterEntity := {
  ce_Cluster : string;
  ce_Version : Z }.

Record ClusterConfigurationEntity := {
  cc_Version : Z }.

Record ClusterStatusEntity := {
  cs_ID : Z;
  cs_Status : Status }.

Record ReconciliationEntity := {
  re_SchedulingID : string;
  re_Cluster : string;
  re_ClusterConfig : Z;
  re_Finished : bool }.

(** [cluster.State]. *)
Record State := {
  Cluster : ClusterEntity;
  Configuration : ClusterConfigurationEntity;
  Status_ : ClusterStatusEntity }.

End model.
Export model.

(** ** The collaborators of the status transition and of the handlers *)
Section Interfaces.

(** The contents of the database behind [db.Connection]. *)
Variable DB : Type.

(** [cluster.Inventory], the methods the sources call.  A Go method
    returning [(value, error)] whose value is read only when the error is
    nil returns a sum.  [UpdateStatus] returns the Go pair: the status
    transition reads the returned state in its error branch too. *)
Record Inventory := {
  inv_Get : string -> Z -> DB -> DB * (State + error);
  inv_GetLatest : string -> DB -> DB * (State + error);
  inv_UpdateStatus : State -> Status -> DB -> DB * (option State * option error);
  inv_Delete : string -> DB -> DB * option error }.

(** [reconciliation.Repository], the methods the sources call. *)
Record Repository := {
  repo_CreateReconciliation :
    State -> list string -> DB -> DB * (ReconciliationEntity + error);
  repo_GetReconciliation : string -> DB -> DB * (ReconciliationEntity + error);
  repo_FinishReconciliation : string -> ClusterStatusEntity -> DB -> DB * option error }.

End Interfaces.

Arguments inv_Get {DB}.
Arguments inv_GetLatest {DB}.
Arguments inv_UpdateStatus {DB}.
Arguments inv_Delete {DB}.
Arguments repo_CreateReconciliation {DB}.
Arguments repo_GetReconciliation {DB}.
Arguments repo_FinishReconciliation {DB}.

(** ** The cluster status transition (package service, first file) *)
Module Transition.

(** The calls the transition makes on its collaborators, with their
    arguments. *)
Inductive Call :=
| call_CreateReconciliation (clusterState : State) (preComponents : list string)
| call_UpdateStatus (clusterState : State) (status : Status)
| call_GetReconciliation (schedulingID : string)
| call_Get (cluster : string) (configVersion : Z)
| call_FinishReconciliation (schedulingID : string) (status : ClusterStatusEntity).

(** What a Go function call ends in: it returns, or it panics. *)
Inductive outcome (A : Type) :=
| Returned (a : A)
| Panicked (msg : string).
Arguments Returned {A}.
Arguments Panicked {A}.

Section Transition.

Context {DB : Type}.
Context `{!Stringer ReconciliationEntity} `{!Stringer ClusterStatusEntity}
  `{!Stringer Status}.

(** The state the transition acts on: the database, the log written
    through [t.logger], and the calls made so far (both most recent
    first).  Only the database takes part in a transaction. *)
Record World := {
  store : DB;
  log : list LogEntry;
  calls : list Call }.

Definition M (A : Type) : Type := World -> World * outcome A.

Definition ret {A} (a : A) : M A := fun w => (w, Returned a).

Definition bind {A B} (m : M A) (k : A -> M B) : M B :=
  fun w =>
    match m w with
    | (w', Returned a) => k a w'
    | (w', Panicked msg) => (w', Panicked msg)
    end.

Notation "x <~ m ;; k" := (bind m (fun x => k))
  (at level 100, m at level 99, right associativity).
Notation "m ;;; k" := (bind m (fun _ => k))
  (at level 100, right associativity).

(** Dereferencing a pointer: nil panics. *)
Definition deref {A} (p : option A) : M A :=
  fun w =>
    match p with
    | Some a => (w, Returned a)
    | None => (w, Panicked "invalid memory address or nil pointer dereference")
    end.

(** [t.logger.Infof] and its siblings. *)
Definition logf (lvl : Level) (format : string) (args : list string) : M unit :=
  fun w =>
    ({| store := store w;
        log := {| level := lvl; message := Sprintf format args |} :: log w;
        calls := calls w |}, Returned tt).

Definition Infof := logf InfoLevel.
Definition Errorf := logf ErrorLevel.
Definition Debugf := logf DebugLevel.

(** A call of a collaborator's method: it acts on the database and is
    recorded. *)
Definition call {A} (c : Call) (f : DB -> DB * A) : M A :=
  fun w =>
    let '(s', a) := f (store w) in
    ({| store := s'; log := log w; calls := c :: calls w |}, Returned a).

(** Modelled from the spec: [db.Transaction(conn, dbOp, logger)] (pkg/db is
    not among the sources).  The spec asks for ACID transactions scoped to
    a single call, in which both calls succeed or both roll back, the
    caller seeing the underlying error: the operations run against the
    database, and unless they return nil the database is restored to what
    it was before.  The log and the record of calls are not part of the
    database. *)
Definition db_Transaction (dbOp : M (option error)) : M (option error) :=
  fun w =>
    let '(w', r) := dbOp w in
    match r with
    | Returned None => (w', r)
    | _ => ({| store := store w; log := log w'; calls := calls w' |}, r)
    end.

(** [ClusterStatusTransition]: [conn] and [logger] are the [World]. *)
Record ClusterStatusTransition := {
  inventory : Inventory DB;
  reconRepo : Repository DB }.

Definition StartReconciliation (t : ClusterStatusTransition)
    (clusterState : State) (preComponents : list string) : M (option error) :=
  let dbOp : M (option error) :=
    (* create reconciliation entity *)
    r <~ call (call_CreateReconciliation clusterState preComponents)
           (repo_CreateReconciliation (reconRepo t) clusterState preComponents) ;;
    match r with
    | inr err =>
        if IsDuplicateClusterReconciliationError err then
          Infof ("Cluster transition tried to add cluster '%s' to reconciliation queue but "
                 +:+ "cluster was already enqueued")
            [ce_Cluster (Cluster clusterState)] ;;;
          ret (Some err)
        else
          Errorf "Cluster transition failed to add cluster '%s' to reconciliation queue: %s"
            [ce_Cluster (Cluster clusterState); String_ err] ;;;
          ret (Some err)
    | inl reconEntity =>
        (* set cluster status to reconciling *)
        u <~ call (call_UpdateStatus clusterState ClusterStatusReconciling)
               (inv_UpdateStatus (inventory t) clusterState ClusterStatusReconciling) ;;
        let '(newClusterState, err) := u in
        match err with
        | None =>
            Infof "Cluster transition finished: cluster '%s' added to reconciliation queue (reconciliation entity: %s)"
              [ce_Cluster (Cluster clusterState); String_ reconEntity] ;;;
            ncs <~ deref newClusterState ;;
            Debugf "Cluster transition set status of cluster '%s' to '%s' (cluster status entity: %s)"
              [ce_Cluster (Cluster clusterState); String_ ClusterStatusReconciling;
               String_ (Status_ ncs)] ;;;
            ret err
        | Some e =>
            Errorf "Cluster transition failed to update status of cluster '%s' to '%s': %s"
              [ce_Cluster (Cluster clusterState); String_ ClusterStatusReconciling;
               String_ e] ;;;
            ret err
        end
    end in
  db_Transaction dbOp.

Definition FinishReconciliation (t : ClusterStatusTransition)
    (schedulingID : string) (status : Status) : M (option error) :=
  let dbOp : M (option error) :=
    r <~ call (call_GetReconciliation schedulingID)
           (repo_GetReconciliation (reconRepo t) schedulingID) ;;
    match r with
    | inr err =>
        Errorf "Cluster transition failed to retrieve reconciliation entity with schedulingID '%s': %s"
          [schedulingID; String_ err] ;;;
        ret (Some err)
    | inl reconEntity =>
        if re_Finished reconEntity then
          Infof ("Cluster transition tried to finish reconciliation '%s' but it is no longer marked to be in progress "
                 +:+ "(maybe finished by parallel process in between)")
            [String_ reconEntity] ;;;
          ret (Some (errorString
                 (Sprintf "reconciliation '%s' is already finished" [String_ reconEntity])))
        else
          g <~ call (call_Get (re_Cluster reconEntity) (re_ClusterConfig reconEntity))
                 (inv_Get (inventory t) (re_Cluster reconEntity) (re_ClusterConfig reconEntity)) ;;
          match g with
          | inr err =>
              Errorf ("Cluster transition failed to retrieve cluster state for cluster '%s' "
                      +:+ "(configVersion: %d): %s")
                [re_Cluster reconEntity; String_ (re_ClusterConfig reconEntity); String_ err] ;;;
              ret (Some err)
          | inl clusterState =>
              u <~ call (call_UpdateStatus clusterState status)
                     (inv_UpdateStatus (inventory t) clusterState status) ;;
              let '(clusterState', err) := u in
              match err with
              | Some e =>
                  cs <~ deref clusterState' ;;
                  Errorf "Cluster transition failed to update status of cluster '%s' to '%s': %s"
                    [ce_Cluster (Cluster cs); String_ status; String_ e] ;;;
                  ret err
              | None =>
                  cs <~ deref clusterState' ;;
                  err <~ call (call_FinishReconciliation schedulingID (Status_ cs))
                           (repo_FinishReconciliation (reconRepo t) schedulingID (Status_ cs)) ;;
                  match err with
                  | None =>
                      Debugf ("Cluster transition finished reconciliation of cluster '%s' (schedulingID '%s'): "
                              +:+ "new cluster status is '%s'")
                        [ce_Cluster (Cluster cs); schedulingID; String_ (cs_Status (Status_ cs))] ;;;
                      ret err
                  | Some e =>
                      Errorf ("Cluster transition failed to finish reconciliation with schedulingID '%s' "
                              +:+ "of cluster '%s': %s")
                        [schedulingID; ce_Cluster (Cluster cs); String_ e] ;;;
                      ret err
                  end
              end
          end
    end in
  db_Transaction dbOp.

End Transition.

Arguments World : clear implicits.
Arguments M : clear implicits.
Arguments ClusterStatusTransition : clear implicits.

End Transition.

(** ** The component runner (package service, second file) *)
Module Runner.

(** [reconciler.Reconciliation], the model handed to the runner, with the
    fields the spec lists as the runner's input.  [V] stands for the
    [interface{}] values of the configuration. *)
Record Configuration (V : Type) := {
  Key : string;
  Value : V }.
Arguments Key {V}.
Arguments Value {V}.

Record Reconciliation (V : Type) := {
  Component : string;
  Version : string;
  Profile : string;
  Namespace : string;
  Kubeconfig : string;
  Configuration_ : list (Configuration V);
  InstallCRD : bool }.
Arguments Component {V}.
Arguments Version {V}.
Arguments Profile {V}.
Arguments Namespace {V}.
Arguments Kubeconfig {V}.
Arguments Configuration_ {V}.
Arguments InstallCRD {V}.

(** [chart.Component] and [chart.ComponentSet], as [chart.NewComponent]
    and [chart.NewComponentSet] fill them. *)
Record chart_Component (V : Type) := NewComponent {
  comp_name : string;
  comp_namespace : string;
  comp_configuration : gmap string V }.
Arguments NewComponent {V}.

Record chart_ComponentSet (V : Type) := NewComponentSet {
  set_kubeconfig : string;
  set_version : string;
  set_profile : string;
  set_components : list (chart_Component V) }.
Arguments NewComponentSet {V}.

(** [chart.Options{}]. *)
Record chart_Options := { }.

(** [components.Manifest] of the chart library; [MT] stands for its
    [ManifestType]. *)
Record Manifest (MT : Type) := {
  Type_ : MT;
  Name_ : string;
  Manifest_ : string }.
Arguments Type_ {MT}.
Arguments Name_ {MT}.
Arguments Manifest_ {MT}.

(** [kubernetes.Resource]: kind, namespace and name of a deployed resource. *)
Record Resource := {
  Kind : string;
  res_Namespace : string;
  res_Name : string }.

(** [status.Config] and [progress.Config]. *)
Record status_Config := {
  st_Interval : Z;
  st_MaxRetries : Z;
  st_RetryDelay : Z }.

Record progress_Config := {
  pt_Timeout : Z;
  pt_Interval : Z }.

(** The options the runner hands to [retry.Do]. *)
Record retry_Config := {
  Attempts : Z;
  Delay : Z;
  LastErrorOnly : bool }.

Section Runner.

(** [E] is the state of everything outside the runner: the target
    cluster, the callback's receiver, the context [ctx] and the clock.
    [K], [CS], [U], [P] and [W] stand for [kubernetes.Client], the client
    set, [*status.Updater], [*progress.Tracker] and the watchable
    resource kind; [CB] for [callback.Handler]. *)
Context {E V MT K CS U P W CB : Type}.
Context `{!EqDecision MT} `{!Stringer MT} `{!Stringer Resource}.

(** [components.CRD], the manifest type of custom resource definitions. *)
Variable CRD : MT.

(** The calls the runner makes, and the two records the retry loop
    leaves: its wait between attempts and the result of each attempt. *)
Inductive Call :=
| call_NewStatusUpdater
| call_Running
| call_Failed
| call_Success
| call_Error
| call_NewKubernetesClient (kubeconfig : string)
| call_Clientset
| call_preInstallAction (version : string)
| call_installAction (version : string)
| call_postInstallAction (version : string)
| call_Manifests (installCRD : bool)
| call_Deploy (manifest : string)
| call_NewProgressTracker
| call_DeployedResources (manifest : string)
| call_AddResource (watchable : W) (namespace name : string)
| call_Watch
| retry_contextErr
| retry_wait (delay : Z)
| retry_attempt (n : nat).

(** A call with the error it returned, nil or not. *)
Record Event := {
  what : Call;
  failed : option error }.

(** The state the runner acts on: the outside world, the log written
    through [r.logger()] and the calls made so far (both most recent
    first). *)
Record World := {
  ext : E;
  log : list LogEntry;
  calls : list Event }.

Definition M (A : Type) : Type := World -> World * A.

Definition ret {A} (a : A) : M A := fun w => (w, a).

Definition bind {A B} (m : M A) (k : A -> M B) : M B :=
  fun w => let '(w', a) := m w in k a w'.

Notation "x <~ m ;; k" := (bind m (fun x => k))
  (at level 100, m at level 99, right associativity).
Notation "m ;;; k" := (bind m (fun _ => k))
  (at level 100, right associativity).

Definition record (c : Call) (err : option error) : M unit :=
  fun w =>
    ({| ext := ext w; log := log w;
        calls := {| what := c; failed := err |} :: calls w |}, tt).

(** A call returning [error]. *)
Definition call (c : Call) (f : E -> E * option error) : M (option error) :=
  fun w =>
    let '(e', err) := f (ext w) in
    ({| ext := e'; log := log w;
        calls := {| what := c; failed := err |} :: calls w |}, err).

Definition errOf {A} (r : A + error) : option error :=
  match r with
  | inl _ => None
  | inr err => Some err
  end.

(** A call returning [(value, error)]. *)
Definition callv {A} (c : Call) (f : E -> E * (A + error)) : M (A + error) :=
  fun w =>
    let '(e', r) := f (ext w) in
    ({| ext := e'; log := log w;
        calls := {| what := c; failed := errOf r |} :: calls w |}, r).

(** A call returning nothing. *)
Definition callu (c : Call) (f : E -> E) : M unit :=
  fun w =>
    ({| ext := f (ext w); log := log w;
        calls := {| what := c; failed := None |} :: calls w |}, tt).

(** A computation on the outside world that is not a call of the runner
    and is not recorded. *)
Definition lift {A} (f : E -> E * A) : M A :=
  fun w =>
    let '(e', a) := f (ext w) in
    ({| ext := e'; log := log w; calls := calls w |}, a).

(** The logger's methods. *)
Definition logger (lvl : Level) (msg : string) : M unit :=
  fun w =>
    ({| ext := ext w; log := {| level := lvl; message := msg |} :: log w;
        calls := calls w |}, tt).

Definition Debug := logger DebugLevel.
Definition Info := logger InfoLevel.
Definition Warn := logger WarnLevel.
Definition Error_ := logger ErrorLevel.

(** The [Action] interface of the install hooks. *)
Record Action := {
  Action_Run : string -> CS -> E -> E * option error }.

(** The chart provider interface. *)
Record ChartProvider := {
  Manifests :
    chart_ComponentSet V -> bool -> chart_Options -> E -> E * (list (Manifest MT) + error) }.

(** The packages the runner calls into: [status], [kubernetes],
    [progress], the context as [retry.Do] uses it ([context_Err] is
    [ctx.Err()]; [context_wait d] is the select between [time.After(d)]
    and [ctx.Done()], giving [ctx.Err()] when the context ended first),
    and the delay type of retry-go that is in force when the caller of
    [retry.Do] selects none: [retry_delayType n err config] is
    [config.delayType(n, err, config)], the time to wait after the failed
    attempt [n].  It may draw on the outside world, as a random jitter
    does. *)
Record Packages := {
  status_NewStatusUpdater : CB -> bool -> status_Config -> E -> E * (U + error);
  Updater_Running : U -> E -> E * option error;
  Updater_Failed : U -> E -> E * option error;
  Updater_Success : U -> E -> E * option error;
  Updater_Error : U -> E -> E * option error;
  kubernetes_NewKubernetesClient : string -> E -> E * (K + error);
  Client_Clientset : K -> E -> E * (CS + error);
  Client_Deploy : K -> string -> E -> E * option error;
  Client_DeployedResources : K -> string -> E -> E * (list Resource + error);
  progress_NewProgressTracker : CS -> bool -> progress_Config -> E -> E * (P + error);
  progress_NewWatchableResource : string -> W + error;
  Tracker_AddResource : P -> W -> string -> string -> E -> E;
  Tracker_Watch : P -> E -> E * option error;
  context_Err : E -> E * option error;
  context_wait : Z -> E -> E * option error;
  retry_delayType : nat -> error -> retry_Config -> E -> E * Z }.

Variable pkg : Packages.

(** [ComponentReconciler], embedded in [runner]: the fields the runner
    reads. *)
Record ComponentReconciler := {
  debug : bool;
  statusUpdaterConfig : status_Config;
  maxRetries : Z;
  retryDelay : Z;
  progressTrackerConfig : progress_Config;
  chartProvider : ChartProvider;
  preInstallAction : option Action;
  installAction : option Action;
  postInstallAction : option Action }.

(** [unpackUnrecoverable] of retry-go: the error as the loop logs it. *)
Definition unpackUnrecoverable (err : error) : error :=
  match err with
  | Unrecoverable cause => cause
  | _ => err
  end.

(** What [retry.Do] returns when it gives up: the last error with
    [LastErrorOnly(true)], the errors of all attempts otherwise. *)
Definition retry_result (config : retry_Config) (errorLog : list error) : option error :=
  if LastErrorOnly config then
    match errorLog with
    | [] => None
    | e :: _ => Some (List.last errorLog e)
    end
  else Some (retry_Error errorLog).

(** [retry.Do] of retry-go (a library, not part of the repository), for
    the options [Run] sets: attempts, delay, last-error-only and context.
    The body is run until it returns nil, at most [Attempts] times; an
    error that is not recoverable and the end of the context stop the
    loop.  After a failed attempt that is not the last one the loop waits
    the time its delay type computes from the number of the attempt, its
    error and the configuration.  [Run] sets [Delay] and no delay type, so
    the delay type is the library's own, [retry_delayType].  The loop
    records the result of each attempt, and each wait with the time
    waited. *)
Fixpoint retry_loop (retryableFunc : M (option error)) (config : retry_Config)
    (left : nat) (n : nat) (errorLog : list error) : M (option error) :=
  match left with
  | O => ret (retry_result config errorLog)
  | S left' =>
      err <~ retryableFunc ;;
      record (retry_attempt n) err ;;;
      match err with
      | None => ret None
      | Some e =>
          let errorLog := (errorLog ++ [unpackUnrecoverable e])%list in
          if negb (IsRecoverable e) then ret (retry_result config errorLog)
          else
            match left' with
            | O => ret (retry_result config errorLog)
            | S _ =>
                delayTime <~ lift (retry_delayType pkg n e config) ;;
                done <~ call (retry_wait delayTime) (context_wait pkg delayTime) ;;
                match done with
                | Some ctxErr => ret (Some ctxErr)
                | None => retry_loop retryableFunc config left' (S n) errorLog
                end
            end
      end
  end.

Definition retry_Do (retryableFunc : M (option error)) (config : retry_Config)
    : M (option error) :=
  ctxErr <~ call retry_contextErr (context_Err pkg) ;;
  match ctxErr with
  | Some err => ret (Some err)
  | None => retry_loop retryableFunc config (Z.to_nat (Attempts config)) 0 []
  end.

Definition configMap (model : Reconciliation V) : gmap string V :=
  fold_left (fun result comp => <[Key comp := Value comp]> result)
    (Configuration_ model) ∅.

Definition newComponentSet (model : Reconciliation V) : chart_ComponentSet V :=
  let comp := NewComponent (Component model) (Namespace model) (configMap model) in
  let compSet :=
    NewComponentSet (Kubeconfig model) (Version model) (Profile model) [comp] in
  compSet.

(** The loop of [renderManifest] over the manifests, writing to [buffer]. *)
Fixpoint writeManifests (model : Reconciliation V) (manifests : list (Manifest MT))
    (buffer : string) : M string :=
  match manifests with
  | [] => ret buffer
  | manifest :: rest =>
      (if negb (InstallCRD model) && bool_decide (Type_ manifest = CRD) then
         Error_ (Sprintf ("Illegal state detected! "
                          +:+ "No CRDs were requested but chartProvider returned CRD manifest: '%s'")
                   [Name_ manifest])
       else ret tt) ;;;
      let buffer := buffer +:+ ("---" +:+ nl) in
      let buffer := buffer +:+ Sprintf ("# Manifest of %s '%s'" +:+ nl)
                                 [String_ (Type_ manifest); Component model] in
      let buffer := buffer +:+ Manifest_ manifest in
      let buffer := buffer +:+ nl in
      writeManifests model rest buffer
  end.

Definition renderManifest (r : ComponentReconciler) (model : Reconciliation V)
    : M (string + error) :=
  m <~ callv (call_Manifests (InstallCRD model))
         (Manifests (chartProvider r) (newComponentSet model) (InstallCRD model) Build_chart_Options) ;;
  match m with
  | inr err =>
      let msg := Sprintf "Failed to render manifest for component '%s'" [Component model] in
      Warn msg ;;;
      ret (inr (errors_Wrap err msg))
  | inl manifests =>
      Debug (Sprintf "Rendering of component '%s' returned %d manifests"
               [Component model; String_ (length manifests)]) ;;;
      buffer <~ writeManifests model manifests "" ;;
      ret (inl buffer)
  end.

(** The loop of [trackProgress] over the deployed resources. *)
Fixpoint addResources (pt : P) (resources : list Resource) : M unit :=
  match resources with
  | [] => ret tt
  | resource :: rest =>
      match progress_NewWatchableResource pkg (Kind resource) with
      | inr _ =>
          Debug (Sprintf "Ignoring non-watchable resource: %s" [String_ resource]) ;;;
          addResources pt rest
      | inl watchable =>
          callu (call_AddResource watchable (res_Namespace resource) (res_Name resource))
            (Tracker_AddResource pkg pt watchable (res_Namespace resource) (res_Name resource)) ;;;
          addResources pt rest
      end
  end.

Definition trackProgress (r : ComponentReconciler) (manifest : string) (kubeClient : K)
    : M (option error) :=
  c <~ callv call_Clientset (Client_Clientset pkg kubeClient) ;;
  match c with
  | inr err => ret (Some err)
  | inl clientSet =>
      (* get resources defined in manifest *)
      t <~ callv call_NewProgressTracker
             (progress_NewProgressTracker pkg clientSet (debug r)
                {| pt_Timeout := pt_Timeout (progressTrackerConfig r);
                   pt_Interval := pt_Interval (progressTrackerConfig r) |}) ;;
      match t with
      | inr err => ret (Some err)
      | inl pt =>
          (* watch progress of installed resources *)
          d <~ callv (call_DeployedResources manifest)
                 (Client_DeployedResources pkg kubeClient manifest) ;;
          match d with
          | inr err => ret (Some err)
          | inl resources =>
              addResources pt resources ;;;
              Debug "Start watching installation progress" ;;;
              call call_Watch (Tracker_Watch pkg pt)
          end
      end
  end.

Definition install (r : ComponentReconciler) (model : Reconciliation V) (kubeClient : K)
    : M (option error) :=
  m <~ renderManifest r model ;;
  match m with
  | inr err => ret (Some err)
  | inl manifest =>
      d <~ call (call_Deploy manifest) (Client_Deploy pkg kubeClient manifest) ;;
      match d with
      | Some err =>
          Warn (Sprintf "Failed to deploy manifests on target cluster: %s" [String_ err]) ;;;
          ret (Some err)
      | None => trackProgress r manifest kubeClient
      end
  end.

Definition reconcile (r : ComponentReconciler) (model : Reconciliation V)
    : M (option error) :=
  k <~ callv (call_NewKubernetesClient (Kubeconfig model))
         (kubernetes_NewKubernetesClient pkg (Kubeconfig model)) ;;
  match k with
  | inr err => ret (Some err)
  | inl kubeClient =>
      c <~ callv call_Clientset (Client_Clientset pkg kubeClient) ;;
      match c with
      | inr err => ret (Some err)
      | inl clientSet =>
          pre <~ match preInstallAction r with
                 | Some action =>
                     e <~ call (call_preInstallAction (Version model))
                            (Action_Run action (Version model) clientSet) ;;
                     match e with
                     | Some err =>
                         Warn (Sprintf "Pre-installation action of version '%s' failed: %s"
                                 [Version model; String_ err]) ;;;
                         ret (Some err)
                     | None => ret None
                     end
                 | None => ret None
                 end ;;
          match pre with
          | Some err => ret (Some err)
          | None =>
              ins <~ match installAction r with
                     | None =>
                         e <~ install r model kubeClient ;;
                         match e with
                         | Some err =>
                             Warn (Sprintf "Default-installation of version '%s' failed: %s"
                                     [Version model; String_ err]) ;;;
                             ret (Some err)
                         | None => ret None
                         end
                     | Some action =>
                         e <~ call (call_installAction (Version model))
                                (Action_Run action (Version model) clientSet) ;;
                         match e with
                         | Some err =>
                             Warn (Sprintf "Installation action of version '%s' failed: %s"
                                     [Version model; String_ err]) ;;;
                             ret (Some err)
                         | None => ret None
                         end
                     end ;;
              match ins with
              | Some err => ret (Some err)
              | None =>
                  match postInstallAction r with
                  | Some action =>
                      e <~ call (call_postInstallAction (Version model))
                             (Action_Run action (Version model) clientSet) ;;
                      match e with
                      | Some err =>
                          Warn (Sprintf "Post-installation action of version '%s' failed: %s"
                                  [Version model; String_ err]) ;;;
                          ret (Some err)
                      | None => ret None
                      end
                  | None => ret None
                  end
              end
          end
      end
  end.

(** The closure [retryable] of [Run]. *)
Definition retryable (r : ComponentReconciler) (model : Reconciliation V)
    (statusUpdater : U) : M (option error) :=
  e <~ call call_Running (Updater_Running pkg statusUpdater) ;;
  match e with
  | Some err => ret (Some err)
  | None =>
      err <~ reconcile r model ;;
      match err with
      | Some _ =>
          f <~ call call_Failed (Updater_Failed pkg statusUpdater) ;;
          match f with
          | Some err' => ret (Some err')
          | None => ret err
          end
      | None => ret err
      end
  end.

Definition Run (r : ComponentReconciler) (model : Reconciliation V) (callback : CB)
    : M (option error) :=
  s <~ callv call_NewStatusUpdater
         (status_NewStatusUpdater pkg callback (debug r)
            {| st_Interval := st_Interval (statusUpdaterConfig r);
               st_MaxRetries := st_MaxRetries (statusUpdaterConfig r);
               st_RetryDelay := st_RetryDelay (statusUpdaterConfig r) |}) ;;
  match s with
  | inr err => ret (Some err)
  | inl statusUpdater =>
      (* retry the reconciliation in case of an error *)
      err <~ retry_Do (retryable r model statusUpdater)
               {| Attempts := uint (maxRetries r);
                  Delay := retryDelay r;
                  LastErrorOnly := false |} ;;
      match err with
      | None =>
          Info (Sprintf "Reconciliation of component '%s' for version '%s' finished successfully"
                  [Component model; Version model]) ;;;
          e <~ call call_Success (Updater_Success pkg statusUpdater) ;;
          match e with
          | Some err' => ret (Some err')
          | None => ret err
          end
      | Some _ =>
          Warn (Sprintf "Retryable reconciliation of component '%s' for version '%s' failed consistently: giving up"
                  [Component model; Version model]) ;;;
          e <~ call call_Error (Updater_Error pkg statusUpdater) ;;
          match e with
          | Some err' => ret (Some err')
          | None => ret err
          end
      end
  end.

(** *** Notions used to state the runner's properties *)

(** The text of one manifest in the rendered bundle: the separator, the
    comment header, the manifest and a line feed. *)
Definition manifestDocument (model : Reconciliation V) (manifest : Manifest MT) : string :=
  "---" +:+ nl +:+
  "# Manifest of " +:+ String_ (Type_ manifest) +:+ " '" +:+ Component model +:+ "'" +:+ nl +:+
  Manifest_ manifest +:+ nl.

(** The bundle of a list of manifests: their texts, in order. *)
Fixpoint manifestBundle (model : Reconciliation V) (manifests : list (Manifest MT)) : string :=
  match manifests with
  | [] => ""
  | manifest :: rest => manifestDocument model manifest +:+ manifestBundle model rest
  end.

(** A manifest of type CRD when no CRDs were asked for. *)
Definition unrequestedCRD (model : Reconciliation V) (manifest : Manifest MT) : bool :=
  negb (InstallCRD model) && bool_decide (Type_ manifest = CRD).

(** The log entry for a manifest of type CRD that was not asked for. *)
Definition illegalState (manifest : Manifest MT) : LogEntry :=
  {| level := ErrorLevel;
     message := "Illegal state detected! No CRDs were requested but chartProvider returned CRD manifest: '"
                +:+ Name_ manifest +:+ "'" |}.

(** The deployed resources whose kind converts to a watchable one, with
    that kind, in order. *)
Fixpoint watchables (resources : list Resource) : list (W * string * string) :=
  match resources with
  | [] => []
  | resource :: rest =>
      match progress_NewWatchableResource pkg (Kind resource) with
      | inl watchable =>
          (watchable, res_Namespace resource, res_Name resource) :: watchables rest
      | inr _ => watchables rest
      end
  end.

(** The tracker after the resources [added] were added to it one by one,
    and the record of these calls (most recent first). *)
Definition addAll (pt : P) (added : list (W * string * string)) (e : E) : E :=
  fold_left (fun e '(watchable, namespace, name) =>
               Tracker_AddResource pkg pt watchable namespace name e) added e.

Definition addCalls (added : list (W * string * string)) : list Event :=
  rev (map (fun '(watchable, namespace, name) =>
              {| what := call_AddResource watchable namespace name; failed := None |})
         added).

(** Kinds of recorded events. *)
Definition succeeded (ev : Event) : bool :=
  match failed ev with
  | None => true
  | Some _ => false
  end.

Definition isRunning (ev : Event) : bool :=
  match what ev with call_Running => true | _ => false end.

Definition isFailed (ev : Event) : bool :=
  match what ev with call_Failed => true | _ => false end.

Definition isSuccess (ev : Event) : bool :=
  match what ev with call_Success => true | _ => false end.

Definition isError (ev : Event) : bool :=
  match what ev with call_Error => true | _ => false end.

Definition isContextErr (ev : Event) : bool :=
  match what ev with retry_contextErr => true | _ => false end.

Definition isWait (ev : Event) : bool :=
  match what ev with retry_wait _ => true | _ => false end.

Definition isWaitOf (delay : Z) (ev : Event) : bool :=
  match what ev with retry_wait d => d =? delay | _ => false end.

Definition isAttempt (ev : Event) : bool :=
  match what ev with retry_attempt _ => true | _ => false end.

(** The calls made from within [reconcile]. *)
Definition isReconcileCall (ev : Event) : bool :=
  match what ev with
  | call_NewKubernetesClient _ | call_Clientset | call_preInstallAction _
  | call_installAction _ | call_postInstallAction _ | call_Manifests _
  | call_Deploy _ | call_NewProgressTracker | call_DeployedResources _
  | call_AddResource _ _ _ | call_Watch => true
  | _ => false
  end.

(** The calls of the install path and of the post-install hook. *)
Definition isInstallCall (ev : Event) : bool :=
  match what ev with
  | call_installAction _ | call_postInstallAction _ | call_Manifests _
  | call_Deploy _ | call_NewProgressTracker | call_DeployedResources _
  | call_AddResource _ _ _ | call_Watch => true
  | _ => false
  end.

(** In a record of calls (most recent first), every event that is a [Q]
    comes directly after an event that is a [P]. *)
Fixpoint precededBy (P Q : Event -> bool) (trace : list Event) : bool :=
  match trace with
  | [] => true
  | ev :: earlier =>
      (if Q ev then
         match earlier with
         | before :: _ => P before
         | [] => false
         end
       else true)
      && precededBy P Q earlier
  end.

(** In a record of calls (most recent first), [R before ev] holds of
    every event [ev] and the event [before] recorded directly before it. *)
Fixpoint consecutive (R : Event -> Event -> Prop) (trace : list Event) : Prop :=
  match trace with
  | [] => True
  | ev :: earlier =>
      match earlier with
      | before :: _ => R before ev
      | [] => True
      end
      /\ consecutive R earlier
  end.

(** When [before] is a call of [Running()] that returned an error, [ev]
    is the record of an attempt that returned this error. *)
Definition returnsRunningError (before ev : Event) : Prop :=
  what before = call_Running ->
  forall err, failed before = Some err ->
    exists n, ev = {| what := retry_attempt n; failed := Some err |}.

(** When [ev] is a wait, [before] is the record of a failed attempt, and
    the time waited is what the delay type returns for the number of this
    attempt, its error and [config]. *)
Definition waitsDelayOf (config : retry_Config) (before ev : Event) : Prop :=
  forall d, what ev = retry_wait d ->
    exists n err e0,
      before = {| what := retry_attempt n; failed := Some err |}
      /\ d = snd (retry_delayType pkg n err config e0).

(** An attempt of the retry loop that returned an error, and one that
    returned nil. *)
Definition failedAttempt (ev : Event) : bool := isAttempt ev && negb (succeeded ev).

Definition succeededAttempt (ev : Event) : bool := isAttempt ev && succeeded ev.

(** A call of [Running()] that returned an error. *)
Definition failedRunning (ev : Event) : bool := isRunning ev && negb (succeeded ev).

(** How a failed attempt ends: with the call of [Failed()], or with the
    call of [Running()] when that call itself returned the error. *)
Definition endOfFailedAttempt (ev : Event) : bool :=
  isFailed ev || failedRunning ev.

(** What an attempt starts after: the check of the context before the
    first attempt, or a wait that the context did not end. *)
Definition beforeAttempt (ev : Event) : bool :=
  (isContextErr ev || isWait ev) && succeeded ev.

(** The same, when the wait is one of [delay]. *)
Definition startOfAttempt (delay : Z) (ev : Event) : bool :=
  (isContextErr ev || isWaitOf delay ev) && succeeded ev.

(** An attempt whose error ends the loop: it is not recoverable. *)
Definition unrecoverableAttempt (ev : Event) : bool :=
  isAttempt ev
  && match failed ev with
     | Some err => negb (IsRecoverable err)
     | None => false
     end.

(** The context ended: its check before the first attempt, or a wait,
    returned its error. *)
Definition contextEnded (ev : Event) : bool :=
  (isContextErr ev || isWait ev) && negb (succeeded ev).

(** The events no ordering rule speaks about. *)
Definition quiet (ev : Event) : bool :=
  negb (isRunning ev || isWait ev || isAttempt ev || isSuccess ev || isError ev).

(** The number of attempts in a record of calls. *)
Definition attempts (trace : list Event) : nat := length (List.filter isAttempt trace).

(** [m] adds calls to the record, all of them calls of [reconcile]. *)
Definition adds {A : Type} (m : M A) : Prop :=
  forall w, exists added,
    calls (fst (m w)) = (added ++ calls w)%list /\ forallb isReconcileCall added = true.

(** What holds of the record of calls while the retry loop runs. *)
Record Good (trace : list Event) : Prop := {
  good_failed : precededBy endOfFailedAttempt failedAttempt trace = true;
  good_running : precededBy beforeAttempt isRunning trace = true;
  good_wait : precededBy failedAttempt isWait trace = true;
  good_success : existsb isSuccess trace = false;
  good_error : existsb isError trace = false }.

(** What holds, in addition, between two attempts: a failed call of
    [Running()] is followed by the record of its attempt, and every wait
    follows a failed attempt and lasts what the delay type returns. *)
Record Linked (config : retry_Config) (trace : list Event) : Prop := {
  linked_running : consecutive returnsRunningError trace;
  linked_wait : consecutive (waitsDelayOf config) trace }.

(** What the loop needs to know of its body: one run of it calls
    [Running()], then makes calls no rule speaks about, and when it
    returns an error its last call is the end of a failed attempt; when
    [Running()] returns an error, this is its only call and the error it
    returns. *)
Definition attemptBody (body : M (option error)) : Prop :=
  forall w, exists added f,
    calls (fst (body w))
    = (added ++ {| what := call_Running; failed := f |} :: calls w)%list
    /\ forallb quiet added = true
    /\ (snd (body w) <> None ->
        exists ev earlier,
          calls (fst (body w)) = ev :: earlier /\ endOfFailedAttempt ev = true)
    /\ (forall err, f = Some err -> added = [] /\ snd (body w) = Some err).

(** The world an invocation starts from: nothing logged, no call made. *)
Definition init (e : E) : World := {| ext := e; log := []; calls := [] |}.

End Runner.

Arguments Call : clear implicits.
Arguments Event : clear implicits.
Arguments World : clear implicits.
Arguments M : clear implicits.
Arguments Action : clear implicits.
Arguments ChartProvider : clear implicits.
Arguments Packages : clear implicits.
Arguments ComponentReconciler : clear implicits.

End Runner.

(** ** The REST handlers (cmd/service/start/cmd.go) *)
Module Cmd.

Definition paramContractVersion : string := "contractVersion".
Definition paramCluster : string := "cluster".
Definition paramConfigVersion : string := "configVersion".
Definition paramOffset : string := "offset".

(** The status codes of net/http the handlers use, and [http.StatusText]
    on them. *)
Definition StatusOK : Z := 200.
Definition StatusNoContent : Z := 204.
Definition StatusBadRequest : Z := 400.
Definition StatusNotFound : Z := 404.
Definition StatusInternalServerError : Z := 500.

Definition StatusText (code : Z) : string :=
  if code =? StatusOK then "OK"
  else if code =? StatusNoContent then "No Content"
  else if code =? StatusBadRequest then "Bad Request"
  else if code =? StatusNotFound then "Not Found"
  else if code =? StatusInternalServerError then "Internal Server Error"
  else "".

(** [*http.Request]: the route variables [mux.Vars(r)] and what else the
    handlers read. *)
Record Request := {
  Vars : gmap string string;
  Host : string;
  RequestURI : string }.

(** [http.ResponseWriter]: the header map, the status code once written,
    and the body written so far. *)
Record ResponseWriter := {
  Header : gmap string string;
  statusCode : option Z;
  body : string }.

Definition newResponseWriter : ResponseWriter :=
  {| Header := ∅; statusCode := None; body := "" |}.

Definition toUpper (c : ascii) : ascii :=
  let n := nat_of_ascii c in
  if (97 <=? n)%nat && (n <=? 122)%nat then ascii_of_nat (n - 32) else c.

Definition toLower (c : ascii) : ascii :=
  let n := nat_of_ascii c in
  if (65 <=? n)%nat && (n <=? 90)%nat then ascii_of_nat (n + 32) else c.

(** [textproto.CanonicalMIMEHeaderKey] on header names made of letters,
    digits and hyphens, as the handlers' are. *)
Fixpoint canonicalMIMEHeaderKey (upper : bool) (s : string) : string :=
  match s with
  | EmptyString => EmptyString
  | String c rest =>
      String (if upper then toUpper c else toLower c)
        (canonicalMIMEHeaderKey (Ascii.eqb c "-"%char) rest)
  end.

(** [w.Header().Set(key, value)]. *)
Definition Header_Set (key value : string) (w : ResponseWriter) : ResponseWriter :=
  {| Header := <[canonicalMIMEHeaderKey true key := value]> (Header w);
     statusCode := statusCode w;
     body := body w |}.

(** [w.WriteHeader(code)]: only the first call counts. *)
Definition WriteHeader (code : Z) (w : ResponseWriter) : ResponseWriter :=
  match statusCode w with
  | Some _ => w
  | None => {| Header := Header w; statusCode := Some code; body := body w |}
  end.

(** [w.Write(data)]: writes the header with 200 if none was written. *)
Definition Write (data : string) (w : ResponseWriter) : ResponseWriter :=
  let w := WriteHeader StatusOK w in
  {| Header := Header w; statusCode := statusCode w; body := body w +:+ data |}.

(** [http.Error(w, error, code)]. *)
Definition http_Error (w : ResponseWriter) (error : string) (code : Z) : ResponseWriter :=
  let w := Header_Set "Content-Type" "text/plain; charset=utf-8" w in
  let w := Header_Set "X-Content-Type-Options" "nosniff" w in
  let w := WriteHeader code w in
  Write (error +:+ nl) w.

(** What the server does when a handler returns: a response whose header
    was never written goes out with status 200. *)
Definition finishRequest (w : ResponseWriter) : ResponseWriter :=
  WriteHeader StatusOK w.

(** The double quote, for the messages of strconv. *)
Definition quote : string := String (ascii_of_nat 34) EmptyString.

(** [strconv.ParseInt(s, 10, 64)]. *)
Definition digit (c : ascii) : option Z :=
  let n := nat_of_ascii c in
  if (48 <=? n)%nat && (n <=? 57)%nat then Some (Z.of_nat (n - 48)) else None.

Fixpoint parseDigits (s : string) (acc : Z) : option Z :=
  match s with
  | EmptyString => Some acc
  | String c rest =>
      match digit c with
      | Some d => parseDigits rest (10 * acc + d)
      | None => None
      end
  end.

Definition NumError (s reason : string) : error :=
  errorString ("strconv.ParseInt: parsing " +:+ quote +:+ s +:+ quote +:+ ": " +:+ reason).

Definition ParseInt (s : string) : Z + error :=
  let '(neg, digits) :=
    match s with
    | String c rest =>
        if Ascii.eqb c "+"%char then (false, rest)
        else if Ascii.eqb c "-"%char then (true, rest)
        else (false, s)
    | EmptyString => (false, s)
    end in
  match digits with
  | EmptyString => inr (NumError s "invalid syntax")
  | _ =>
      match parseDigits digits 0 with
      | None => inr (NumError s "invalid syntax")
      | Some un =>
          if negb neg && (2 ^ 63 <=? un) then inr (NumError s "value out of range")
          else if neg && (2 ^ 63 <? un) then inr (NumError s "value out of range")
          else inl (if neg then - un else un)
      end
  end.

(** The values of a response payload ([map[string]interface{}]). *)
Inductive any :=
| any_string (s : string)
| any_int64 (n : Z)
| any_Status (s : Status).

Section Handlers.

Context {DB : Type}.

(** [json.NewEncoder(w).Encode(payload)] of encoding/json. *)
Variable json_Encode : ResponseWriter -> gmap string any -> ResponseWriter * option error.

(** [Options], as far as the handlers use it. *)
Record Options := {
  Port : Z;
  SSLCrt : string;
  SSLKey : string;
  Inventory_ : Inventory DB }.

Definition Handler : Type := ResponseWriter -> Request -> DB -> DB * ResponseWriter.

Definition callHandler (o : Options)
    (handler : Options -> ResponseWriter -> Request -> DB -> DB * ResponseWriter)
    : Handler :=
  fun w r => handler o w r.

Record param := {
  params : gmap string string }.

Definition newParam (r : Request) : param :=
  {| params := Vars r |}.

Definition param_string (p : param) (name : string) : string + error :=
  match params p !! name with
  | None => inr (errorString (Sprintf "Parameter '%s' undefined" [name]))
  | Some result => inl result
  end.

Definition param_int64 (p : param) (name : string) : Z + error :=
  match param_string p name with
  | inr err => inr err
  | inl strResult => ParseInt strResult
  end.

Definition sendError (w : ResponseWriter) (httpCode : Z) (err : error) : ResponseWriter :=
  http_Error w (Sprintf ("%s" +:+ nl +:+ nl +:+ "%s") [StatusText httpCode; Error err]) httpCode.

Definition sendResponse (w : ResponseWriter) (payload : gmap string any) : ResponseWriter :=
  let w := Header_Set "content-type" "application/json" w in
  let '(w, err) := json_Encode w payload in
  match err with
  | Some err =>
      sendError w StatusInternalServerError
        (errors_Wrap err "Failed to encode response payload to JSON")
  | None => w
  end.

Definition responsePayload (clusterState : State) : gmap string any :=
  <["cluster" := any_string (ce_Cluster (Cluster clusterState))]>
  (<["clusterVersion" := any_int64 (ce_Version (Cluster clusterState))]>
  (<["configurationVersion" := any_int64 (cc_Version (Configuration clusterState))]>
  (<["status" := any_Status (cs_Status (Status_ clusterState))]> ∅))).

Definition get (o : Options) (w : ResponseWriter) (r : Request) (db : DB)
    : DB * ResponseWriter :=
  let params := newParam r in
  match param_string params "cluster" with
  | inr err => (db, sendError w StatusBadRequest err)
  | inl cluster =>
      match param_int64 params "configVersion" with
      | inr err => (db, sendError w StatusBadRequest err)
      | inl configVersion =>
          let '(db, g) := inv_Get (Inventory_ o) cluster configVersion db in
          match g with
          | inr err =>
              (db, sendError w StatusInternalServerError
                     (errors_Wrap err "Cloud not retrieve cluster state"))
          | inl clusterState => (db, sendResponse w (responsePayload clusterState))
          end
      end
  end.

Definition delete (o : Options) (w : ResponseWriter) (r : Request) (db : DB)
    : DB * ResponseWriter :=
  let params := newParam r in
  match param_string params "cluster" with
  | inr err => (db, sendError w StatusBadRequest err)
  | inl cluster =>
      let '(db, g) := inv_GetLatest (Inventory_ o) cluster db in
      let deleteCluster :=
        let '(db, d) := inv_Delete (Inventory_ o) cluster db in
        match d with
        | Some err =>
            (db, sendError w StatusInternalServerError
                   (errors_Wrap err (Sprintf "Failed to delete cluster '%s'" [cluster])))
        | None => (db, w)
        end in
      match g with
      | inr err =>
          if IsNotFoundError err then
            (db, sendError w StatusNotFound
                   (errors_Wrap err
                      (Sprintf "Deletion impossible: cluster '%s' not found" [cluster])))
          else deleteCluster
      | inl _ => deleteCluster
      end
  end.

(** One request served by a handler: the handler runs on a fresh
    response writer, then the server finishes the response. *)
Definition serve (handler : Handler) (r : Request) (db : DB) : DB * ResponseWriter :=
  let '(db, w) := handler newResponseWriter r db in
  (db, finishRequest w).

End Handlers.

Arguments Options : clear implicits.
Arguments Handler : clear implicits.

End Cmd.

(** ** In-memory collaborators, to run the code on concrete inputs *)
Module Mem.

(** Modelled from the spec: an in-memory database with the cluster states
    (latest first) and the reconciliation entities; pkg/cluster and
    pkg/scheduler/reconciliation are not among the sources.  It is used
    only to evaluate the embedded code on concrete inputs. *)
Record MemDB := {
  states : list State;
  recons : list ReconciliationEntity }.

Definition sameCluster (cluster : string) (st : State) : bool :=
  String.eqb (ce_Cluster (Cluster st)) cluster.

Definition notFound (cluster : string) : error :=
  EntityNotFoundError (Sprintf "cluster '%s' not found" [cluster]).

(** Modelled from the spec: [Get] fails with NotFound when absent. *)
Definition mem_Get (cluster : string) (configVersion : Z) (db : MemDB)
    : MemDB * (State + error) :=
  match find (fun st => sameCluster cluster st
                        && Z.eqb (cc_Version (Configuration st)) configVersion)
             (states db) with
  | Some st => (db, inl st)
  | None => (db, inr (notFound cluster))
  end.

(** Modelled from the spec: [GetLatest] is the latest state of the cluster
    and fails with NotFound. *)
Definition mem_GetLatest (cluster : string) (db : MemDB) : MemDB * (State + error) :=
  match find (sameCluster cluster) (states db) with
  | Some st => (db, inl st)
  | None => (db, inr (notFound cluster))
  end.

(** Modelled from the spec: [UpdateStatus] appends a new status record. *)
Definition mem_UpdateStatus (st : State) (status : Status) (db : MemDB)
    : MemDB * (option State * option error) :=
  match find (sameCluster (ce_Cluster (Cluster st))) (states db) with
  | Some _ =>
      let st' := {| Cluster := Cluster st; Configuration := Configuration st;
                    Status_ := {| cs_ID := Z.of_nat (length (states db)) + 1;
                                  cs_Status := status |} |} in
      ({| states := st' :: states db; recons := recons db |}, (Some st', None))
  | None => (db, (None, Some (notFound (ce_Cluster (Cluster st)))))
  end.

(** Modelled from the spec: [Delete] transitions to Deleting and fails with
    NotFound if absent. *)
Definition mem_Delete (cluster : string) (db : MemDB) : MemDB * option error :=
  match find (sameCluster cluster) (states db) with
  | Some st => (fst (mem_UpdateStatus st ClusterStatusDeleting db), None)
  | None => (db, Some (notFound cluster))
  end.

Definition inFlight (cluster : string) (r : ReconciliationEntity) : bool :=
  String.eqb (re_Cluster r) cluster && negb (re_Finished r).

(** Modelled from the spec: [CreateReconciliation] fails with
    DuplicateClusterReconciliation when the cluster has a reconciliation in
    flight, and inserts a new entity otherwise. *)
Definition mem_CreateReconciliation (st : State) (preComponents : list string)
    (db : MemDB) : MemDB * (ReconciliationEntity + error) :=
  let cluster := ce_Cluster (Cluster st) in
  match find (inFlight cluster) (recons db) with
  | Some _ =>
      (db, inr (DuplicateClusterReconciliationError
                  (Sprintf "cluster '%s' is already enqueued" [cluster])))
  | None =>
      let r := {| re_SchedulingID := Sprintf "%s--%d" [cluster; pretty (length (recons db))];
                  re_Cluster := cluster;
                  re_ClusterConfig := cc_Version (Configuration st);
                  re_Finished := false |} in
      ({| states := states db; recons := r :: recons db |}, inl r)
  end.

Definition mem_GetReconciliation (schedulingID : string) (db : MemDB)
    : MemDB * (ReconciliationEntity + error) :=
  match find (fun r => String.eqb (re_SchedulingID r) schedulingID) (recons db) with
  | Some r => (db, inl r)
  | None => (db, inr (EntityNotFoundError
                        (Sprintf "reconciliation '%s' not found" [schedulingID])))
  end.

Definition finish (schedulingID : string) (r : ReconciliationEntity)
    : ReconciliationEntity :=
  if String.eqb (re_SchedulingID r) schedulingID then
    {| re_SchedulingID := re_SchedulingID r; re_Cluster := re_Cluster r;
       re_ClusterConfig := re_ClusterConfig r; re_Finished := true |}
  else r.

(** Modelled from the spec: [FinishReconciliation] marks the entity
    finished and fails when it is not in flight. *)
Definition mem_FinishReconciliation (schedulingID : string)
    (status : ClusterStatusEntity) (db : MemDB) : MemDB * option error :=
  match find (fun r => String.eqb (re_SchedulingID r) schedulingID
                       && negb (re_Finished r)) (recons db) with
  | Some _ => ({| states := states db; recons := map (finish schedulingID) (recons db) |}, None)
  | None => (db, Some (errorString
                         (Sprintf "reconciliation '%s' is not in progress" [schedulingID])))
  end.

Definition mem_inventory : Inventory MemDB := {|
  inv_Get := mem_Get;
  inv_GetLatest := mem_GetLatest;
  inv_UpdateStatus := mem_UpdateStatus;
  inv_Delete := mem_Delete |}.

Definition mem_repository : Repository MemDB := {|
  repo_CreateReconciliation := mem_CreateReconciliation;
  repo_GetReconciliation := mem_GetReconciliation;
  repo_FinishReconciliation := mem_FinishReconciliation |}.

#[global] Instance ReconciliationEntity_Stringer : Stringer ReconciliationEntity :=
  re_SchedulingID.

#[global] Instance ClusterStatusEntity_Stringer : Stringer ClusterStatusEntity :=
  fun s => pretty (cs_ID s).

#[global] Instance Status_Stringer : Stringer Status := fun s =>
  match s with
  | ClusterStatusReconcilable => "reconcilable"
  | ClusterStatusReconciling => "reconciling"
  | ClusterStatusReady => "ready"
  | ClusterStatusError => "error"
  | ClusterStatusDeleting => "deleting"
  | ClusterStatusDeleted => "deleted"
  end.

(** A cluster [c1] with configuration version 1, waiting to be reconciled. *)
Definition c1 : State := {|
  Cluster := {| ce_Cluster := "c1"; ce_Version := 1 |};
  Configuration := {| cc_Version := 1 |};
  Status_ := {| cs_ID := 1; cs_Status := ClusterStatusReconcilable |} |}.

Definition db_c1 : MemDB := {| states := [c1]; recons := [] |}.

Definition transition : Transition.ClusterStatusTransition MemDB := {|
  Transition.inventory := mem_inventory;
  Transition.reconRepo := mem_repository |}.

Definition world (db : MemDB) : Transition.World MemDB := {|
  Transition.store := db; Transition.log := []; Transition.calls := [] |}.

(** The same database once [c1] is being reconciled, and once that
    reconciliation is finished. *)
Definition db_reconciling : MemDB :=
  Transition.store (fst (Transition.StartReconciliation transition c1 ["istio"] (world db_c1))).

Definition db_ready : MemDB :=
  Transition.store
    (fst (Transition.FinishReconciliation transition "c1--0" ClusterStatusReady
            (world db_reconciling))).

(** A cluster state the inventory does not know. *)
Definition c9 : State := {|
  Cluster := {| ce_Cluster := "c9"; ce_Version := 1 |};
  Configuration := {| cc_Version := 1 |};
  Status_ := {| cs_ID := 1; cs_Status := ClusterStatusReconcilable |} |}.

(** A JSON encoder for the payloads of the handlers, which always
    succeeds. *)
Definition render_any (v : Cmd.any) : string :=
  match v with
  | Cmd.any_string s => Cmd.quote +:+ s +:+ Cmd.quote
  | Cmd.any_int64 n => pretty n
  | Cmd.any_Status s => Cmd.quote +:+ String_ s +:+ Cmd.quote
  end.

Definition mem_json_Encode (w : Cmd.ResponseWriter) (payload : gmap string Cmd.any)
    : Cmd.ResponseWriter * option error :=
  let member (kv : string * Cmd.any) :=
    Cmd.quote +:+ fst kv +:+ Cmd.quote +:+ ":" +:+ render_any (snd kv) in
  (Cmd.Write ("{" +:+ Join (map member (map_to_list payload)) "," +:+ "}" +:+ nl) w, None).

Definition options : Cmd.Options MemDB := {|
  Cmd.Port := 8080;
  Cmd.SSLCrt := "";
  Cmd.SSLKey := "";
  Cmd.Inventory_ := mem_inventory |}.

(** [GET /v1/clusters/{cluster}/configs/{configVersion}/status]. *)
Definition request_status (cluster configVersion : string) : Cmd.Request := {|
  Cmd.Vars := <[Cmd.paramContractVersion := "1"]>
             (<[Cmd.paramCluster := cluster]>
             (<[Cmd.paramConfigVersion := configVersion]> ∅));
  Cmd.Host := "reconciler:8080";
  Cmd.RequestURI :=
    Sprintf "/v1/clusters/%s/configs/%s/status" [cluster; configVersion] |}.

(** [DELETE /v1/clusters/{cluster}]. *)
Definition request_delete (cluster : string) : Cmd.Request := {|
  Cmd.Vars := <[Cmd.paramContractVersion := "1"]> (<[Cmd.paramCluster := cluster]> ∅);
  Cmd.Host := "reconciler:8080";
  Cmd.RequestURI := Sprintf "/v1/clusters/%s" [cluster] |}.

(** An environment for the runner: a target cluster whose next [flaky]
    deployments fail, a callback receiver that accepts [reachable] more
    notifications and then is down, a context that may be cancelled, and
    what was sent, deployed and tracked so far. *)
Record MemEnv := {
  flaky : nat;
  reachable : nat;
  cancelled : bool;
  notified : list string;
  deployed : list string;
  tracked : list (string * string * string);
  clock : Z }.

Definition notify (status : string) (e : MemEnv) : MemEnv * option error :=
  match reachable e with
  | O => (e, Some (errorString "callback failed"))
  | S n =>
      ({| flaky := flaky e; reachable := n; cancelled := cancelled e;
          notified := status :: notified e; deployed := deployed e;
          tracked := tracked e; clock := clock e |}, None)
  end.

Definition mem_Deploy (manifest : string) (e : MemEnv) : MemEnv * option error :=
  match flaky e with
  | S n =>
      ({| flaky := n; reachable := reachable e; cancelled := cancelled e;
          notified := notified e; deployed := deployed e;
          tracked := tracked e; clock := clock e |},
       Some (errorString "connection refused"))
  | O =>
      ({| flaky := O; reachable := reachable e; cancelled := cancelled e;
          notified := notified e; deployed := manifest :: deployed e;
          tracked := tracked e; clock := clock e |}, None)
  end.

Definition mem_AddResource (watchable namespace name : string) (e : MemEnv) : MemEnv :=
  {| flaky := flaky e; reachable := reachable e; cancelled := cancelled e;
     notified := notified e; deployed := deployed e;
     tracked := (watchable, namespace, name) :: tracked e; clock := clock e |}.

Definition mem_wait (delay : Z) (e : MemEnv) : MemEnv * option error :=
  if cancelled e then (e, Some (context_error "context canceled"))
  else ({| flaky := flaky e; reachable := reachable e; cancelled := cancelled e;
           notified := notified e; deployed := deployed e;
           tracked := tracked e; clock := clock e + delay |}, None).

(** Two delay types of retry-go.  [BackOffDelay]: the configured delay,
    doubled with every attempt; the library's default delay type adds a
    random jitter to it, which this environment draws as zero.
    [FixedDelay]: the configured delay. *)
Definition mem_backOff (n : nat) (err : error) (config : Runner.retry_Config)
    (e : MemEnv) : MemEnv * Z :=
  (e, Runner.Delay config * 2 ^ Z.of_nat n).

Definition mem_fixedDelay (n : nat) (err : error) (config : Runner.retry_Config)
    (e : MemEnv) : MemEnv * Z :=
  (e, Runner.Delay config).

(** Modelled from the spec: the watchable kinds are Pod, Deployment,
    StatefulSet, DaemonSet, Job and PersistentVolumeClaim. *)
Definition mem_NewWatchableResource (kind : string) : string + error :=
  if existsb (String.eqb kind)
       ["Pod"; "Deployment"; "StatefulSet"; "DaemonSet"; "Job"; "PersistentVolumeClaim"]
  then inl kind
  else inr (errorString (Sprintf "Kind '%s' is not supported" [kind])).

Definition mem_resources : list Runner.Resource :=
  [ {| Runner.Kind := "ConfigMap"; Runner.res_Namespace := "istio-system";
       Runner.res_Name := "istio" |};
    {| Runner.Kind := "Deployment"; Runner.res_Namespace := "istio-system";
       Runner.res_Name := "istiod" |} ].

Definition packages
    (delayType : nat -> error -> Runner.retry_Config -> MemEnv -> MemEnv * Z)
    : Runner.Packages MemEnv string unit unit unit string unit := {|
  Runner.status_NewStatusUpdater := fun _ _ _ e => (e, inl tt);
  Runner.Updater_Running := fun _ => notify "running";
  Runner.Updater_Failed := fun _ => notify "failed";
  Runner.Updater_Success := fun _ => notify "success";
  Runner.Updater_Error := fun _ => notify "error";
  Runner.kubernetes_NewKubernetesClient := fun kubeconfig e =>
    if String.eqb kubeconfig "" then (e, inr (errorString "kubeconfig is empty"))
    else (e, inl kubeconfig);
  Runner.Client_Clientset := fun _ e => (e, inl tt);
  Runner.Client_Deploy := fun _ => mem_Deploy;
  Runner.Client_DeployedResources := fun _ _ e => (e, inl mem_resources);
  Runner.progress_NewProgressTracker := fun _ _ _ e => (e, inl tt);
  Runner.progress_NewWatchableResource := mem_NewWatchableResource;
  Runner.Tracker_AddResource := fun _ => mem_AddResource;
  Runner.Tracker_Watch := fun _ e => (e, None);
  Runner.context_Err := fun e =>
    (e, if cancelled e then Some (context_error "context canceled") else None);
  Runner.context_wait := mem_wait;
  Runner.retry_delayType := delayType |}.

(** The packages with the back-off delay of retry-go. *)
Definition mem_packages : Runner.Packages MemEnv string unit unit unit string unit :=
  packages mem_backOff.

#[global] Instance Resource_Stringer : Stringer Runner.Resource := fun resource =>
  Sprintf "%s/%s/%s"
    [Runner.Kind resource; Runner.res_Namespace resource; Runner.res_Name resource].

(** A chart provider that returns a CRD manifest and a chart manifest,
    whether CRDs were asked for or not. *)
Definition crdManifest : Runner.Manifest string :=
  {| Runner.Type_ := "crd"; Runner.Name_ := "istio-crds";
     Runner.Manifest_ := "kind: CustomResourceDefinition" |}.

Definition chartManifest : Runner.Manifest string :=
  {| Runner.Type_ := "helmChart"; Runner.Name_ := "istio";
     Runner.Manifest_ := "kind: Deployment" |}.

Definition mem_chartProvider : Runner.ChartProvider MemEnv string string := {|
  Runner.Manifests := fun _ _ _ e => (e, inl [crdManifest; chartManifest]) |}.

Definition failingHook : Runner.Action MemEnv unit := {|
  Runner.Action_Run := fun _ _ e => (e, Some (errorString "hook failed")) |}.

Definition reconciler (maxRetries : Z) (preInstall : option (Runner.Action MemEnv unit))
    : Runner.ComponentReconciler MemEnv string string unit := {|
  Runner.debug := false;
  Runner.statusUpdaterConfig :=
    {| Runner.st_Interval := 30; Runner.st_MaxRetries := 5; Runner.st_RetryDelay := 1 |};
  Runner.maxRetries := maxRetries;
  Runner.retryDelay := 1000;
  Runner.progressTrackerConfig := {| Runner.pt_Timeout := 600; Runner.pt_Interval := 5 |};
  Runner.chartProvider := mem_chartProvider;
  Runner.preInstallAction := preInstall;
  Runner.installAction := None;
  Runner.postInstallAction := None |}.

Definition istio : Runner.Reconciliation string := {|
  Runner.Component := "istio";
  Runner.Version := "1.0";
  Runner.Profile := "production";
  Runner.Namespace := "istio-system";
  Runner.Kubeconfig := "kubeconfig";
  Runner.Configuration_ := [ {| Runner.Key := "replicas"; Runner.Value := "2" |} ];
  Runner.InstallCRD := false |}.

(** The environment when [n] deployments will fail and the callback
    receiver accepts [m] notifications. *)
Definition env (n m : nat) : MemEnv := {|
  flaky := n; reachable := m; cancelled := false; notified := [];
  deployed := []; tracked := []; clock := 0 |}.

(** [Run] on this environment. *)
Definition run (maxRetries : Z) (preInstall : option (Runner.Action MemEnv unit))
    (e : MemEnv) :=
  Runner.Run "crd" mem_packages (reconciler maxRetries preInstall) istio tt (Runner.init e).

(** [Run] on this environment when retry-go waits a fixed delay. *)
Definition run_fixed (maxRetries : Z) (e : MemEnv) :=
  Runner.Run "crd" (packages mem_fixedDelay) (reconciler maxRetries None) istio tt
    (Runner.init e).

End Mem.

(** ** Properties of the status transition *)
Module TransitionSpec.
Import Transition.

Section TransitionSpec.

Context {DB : Type}.
Context `{!Stringer ReconciliationEntity} `{!Stringer ClusterStatusEntity}
  `{!Stringer Status}.

Implicit Types (t : ClusterStatusTransition DB) (w : World DB).

(** A transaction that ends in anything but a nil error leaves the
    database as it found it. *)
Lemma db_Transaction_rollback (dbOp : M DB (option error)) w w' r :
  db_Transaction dbOp w = (w', r) -> r <> Returned None -> store w' = store w.
Proof.
  unfold db_Transaction. destruct (dbOp w) as [w1 r1].
  destruct r1 as [[e|]|msg]; intros [= <- <-]; simpl; congruence.
Qed.

(** C1. [StartReconciliation] creates the reconciliation entity and sets
    the cluster status to Reconciling inside one transaction: when
    [CreateReconciliation] returns an error, or [UpdateStatus] does, that
    error is returned and the database is what it was before the call (no
    entity persisted, no status changed); when both succeed, nil is
    returned and the database is the one both calls left, in that order. *)
Theorem StartReconciliation_atomic t (clusterState : State) (preComponents : list string) w :
  (forall db1 e,
      repo_CreateReconciliation (reconRepo t) clusterState preComponents (store w)
        = (db1, inr e) ->
      exists w',
        StartReconciliation t clusterState preComponents w = (w', Returned (Some e))
        /\ store w' = store w
        /\ calls w' = call_CreateReconciliation clusterState preComponents :: calls w)
  /\ (forall db1 reconEntity db2 newClusterState e,
      repo_CreateReconciliation (reconRepo t) clusterState preComponents (store w)
        = (db1, inl reconEntity) ->
      inv_UpdateStatus (inventory t) clusterState ClusterStatusReconciling db1
        = (db2, (newClusterState, Some e)) ->
      exists w',
        StartReconciliation t clusterState preComponents w = (w', Returned (Some e))
        /\ store w' = store w)
  /\ (forall db1 reconEntity db2 newClusterState,
      repo_CreateReconciliation (reconRepo t) clusterState preComponents (store w)
        = (db1, inl reconEntity) ->
      inv_UpdateStatus (inventory t) clusterState ClusterStatusReconciling db1
        = (db2, (Some newClusterState, None)) ->
      exists w',
        StartReconciliation t clusterState preComponents w = (w', Returned None)
        /\ store w' = db2
        /\ calls w' = call_UpdateStatus clusterState ClusterStatusReconciling
                        :: call_CreateReconciliation clusterState preComponents
                        :: calls w).
Proof.
  repeat split.
  - intros db1 e Hc.
    unfold StartReconciliation, db_Transaction, bind, call. rewrite Hc. simpl.
    destruct (IsDuplicateClusterReconciliationError e); simpl; eauto.
  - intros db1 reconEntity db2 ncs e Hc Hu.
    unfold StartReconciliation, db_Transaction, bind, call. rewrite Hc. simpl.
    rewrite Hu. simpl. eauto.
  - intros db1 reconEntity db2 ncs Hc Hu.
    unfold StartReconciliation, db_Transaction, bind, call. rewrite Hc. simpl.
    rewrite Hu. simpl. eauto.
Qed.

(** C2. [FinishReconciliation] on a reconciliation that is already marked
    finished returns the already-finished error, leaves the database
    unchanged and calls neither [UpdateStatus] nor the repository's
    [FinishReconciliation]: the only call made is [GetReconciliation].
    On one that is not finished, whose cluster state is loaded, it calls
    [UpdateStatus] with the given status and then the repository's
    [FinishReconciliation] with the new status entity; the result is that
    call's, and the database keeps both changes exactly when it is nil. *)
Theorem FinishReconciliation_guarded t (schedulingID : string) (status : Status) w :
  (forall db1 reconEntity,
      repo_GetReconciliation (reconRepo t) schedulingID (store w) = (db1, inl reconEntity) ->
      re_Finished reconEntity = true ->
      exists w',
        FinishReconciliation t schedulingID status w
          = (w', Returned (Some (errorString
                (Sprintf "reconciliation '%s' is already finished" [String_ reconEntity]))))
        /\ store w' = store w
        /\ calls w' = call_GetReconciliation schedulingID :: calls w)
  /\ (forall db1 reconEntity db2 clusterState db3 clusterState' db4 err,
      repo_GetReconciliation (reconRepo t) schedulingID (store w) = (db1, inl reconEntity) ->
      re_Finished reconEntity = false ->
      inv_Get (inventory t) (re_Cluster reconEntity) (re_ClusterConfig reconEntity) db1
        = (db2, inl clusterState) ->
      inv_UpdateStatus (inventory t) clusterState status db2
        = (db3, (Some clusterState', None)) ->
      repo_FinishReconciliation (reconRepo t) schedulingID (Status_ clusterState') db3
        = (db4, err) ->
      exists w',
        FinishReconciliation t schedulingID status w = (w', Returned err)
        /\ store w' = match err with None => db4 | Some _ => store w end
        /\ calls w' = call_FinishReconciliation schedulingID (Status_ clusterState')
                        :: call_UpdateStatus clusterState status
                        :: call_Get (re_Cluster reconEntity) (re_ClusterConfig reconEntity)
                        :: call_GetReconciliation schedulingID
                        :: calls w).
Proof.
  split.
  - intros db1 reconEntity Hg Hf.
    unfold FinishReconciliation, db_Transaction, bind, call. rewrite Hg. simpl.
    rewrite Hf. simpl. eauto.
  - intros db1 reconEntity db2 clusterState db3 clusterState' db4 err Hg Hf Hi Hu Hr.
    unfold FinishReconciliation, db_Transaction, bind, call. rewrite Hg. simpl.
    rewrite Hf. simpl. rewrite Hi. simpl. rewrite Hu. simpl. rewrite Hr.
    destruct err; simpl; eauto.
Qed.

End TransitionSpec.

(** The three cases of C1 on the in-memory database: a cluster already
    enqueued, a cluster whose status cannot be updated, and a cluster
    that is enqueued. *)
Lemma StartReconciliation_atomic_witness :
  (exists w',
      StartReconciliation Mem.transition Mem.c1 ["istio"] (Mem.world Mem.db_reconciling)
        = (w', Returned (Some (DuplicateClusterReconciliationError
                                 "cluster 'c1' is already enqueued")))
      /\ store w' = Mem.db_reconciling
      /\ calls w' = [call_CreateReconciliation Mem.c1 ["istio"]])
  /\ (exists w',
      StartReconciliation Mem.transition Mem.c9 [] (Mem.world Mem.db_c1)
        = (w', Returned (Some (EntityNotFoundError "cluster 'c9' not found")))
      /\ store w' = Mem.db_c1)
  /\ (exists w',
      StartReconciliation Mem.transition Mem.c1 ["istio"] (Mem.world Mem.db_c1)
        = (w', Returned None)
      /\ store w' = Mem.db_reconciling
      /\ calls w' = [call_UpdateStatus Mem.c1 ClusterStatusReconciling;
                     call_CreateReconciliation Mem.c1 ["istio"]]).
Proof.
  split; [|split].
  - eapply (proj1 (StartReconciliation_atomic Mem.transition Mem.c1 ["istio"]
                     (Mem.world Mem.db_reconciling))).
    vm_compute. reflexivity.
  - eapply (proj1 (proj2 (StartReconciliation_atomic Mem.transition Mem.c9 []
                            (Mem.world Mem.db_c1)))).
    + vm_compute. reflexivity.
    + vm_compute. reflexivity.
  - eapply (proj2 (proj2 (StartReconciliation_atomic Mem.transition Mem.c1 ["istio"]
                            (Mem.world Mem.db_c1)))).
    + vm_compute. reflexivity.
    + vm_compute. reflexivity.
Defined.

(** The two cases of C2 on the in-memory database: the reconciliation of
    [c1] already finished, and still in flight. *)
Lemma FinishReconciliation_guarded_witness :
  (exists w',
      FinishReconciliation Mem.transition "c1--0" ClusterStatusError (Mem.world Mem.db_ready)
        = (w', Returned (Some (errorString "reconciliation 'c1--0' is already finished")))
      /\ store w' = Mem.db_ready
      /\ calls w' = [call_GetReconciliation "c1--0"])
  /\ (exists w',
      FinishReconciliation Mem.transition "c1--0" ClusterStatusReady
        (Mem.world Mem.db_reconciling) = (w', Returned None)
      /\ store w' = Mem.db_ready
      /\ calls w' =
           [call_FinishReconciliation "c1--0"
              {| cs_ID := 3; cs_Status := ClusterStatusReady |};
            call_UpdateStatus
              {| Cluster := Cluster Mem.c1; Configuration := Configuration Mem.c1;
                 Status_ := {| cs_ID := 2; cs_Status := ClusterStatusReconciling |} |}
              ClusterStatusReady;
            call_Get "c1" 1;
            call_GetReconciliation "c1--0"]).
Proof.
  split.
  - exact (proj1 (FinishReconciliation_guarded Mem.transition "c1--0" ClusterStatusError
                    (Mem.world Mem.db_ready))
             Mem.db_ready
             {| re_SchedulingID := "c1--0"; re_Cluster := "c1";
                re_ClusterConfig := 1; re_Finished := true |}
             eq_refl eq_refl).
  - exact (proj2 (FinishReconciliation_guarded Mem.transition "c1--0" ClusterStatusReady
                    (Mem.world Mem.db_reconciling))
             Mem.db_reconciling
             {| re_SchedulingID := "c1--0"; re_Cluster := "c1";
                re_ClusterConfig := 1; re_Finished := false |}
             Mem.db_reconciling
             {| Cluster := Cluster Mem.c1; Configuration := Configuration Mem.c1;
                Status_ := {| cs_ID := 2; cs_Status := ClusterStatusReconciling |} |}
             _ _ Mem.db_ready None
             eq_refl eq_refl eq_refl eq_refl eq_refl).
Defined.

End TransitionSpec.

(** ** Properties of the REST handlers *)
Module CmdSpec.
Import Cmd.

Section CmdSpec.

Context {DB : Type}.
Variable json_Encode : ResponseWriter -> gmap string any -> ResponseWriter * option error.

Implicit Types (o : Options DB) (r : Request) (db : DB) (w : ResponseWriter).

(** [sendError] on a response whose header is not written yet sets the
    status code it is given. *)
Lemma sendError_statusCode w (httpCode : Z) (err : error) :
  statusCode w = None -> statusCode (sendError w httpCode err) = Some httpCode.
Proof.
  intros Hw. unfold sendError, http_Error, Write, WriteHeader, Header_Set. simpl.
  rewrite Hw. reflexivity.
Qed.

Lemma finishRequest_written w (code : Z) :
  statusCode w = Some code -> statusCode (finishRequest w) = Some code.
Proof.
  intros Hw. unfold finishRequest, WriteHeader. rewrite Hw. exact Hw.
Qed.

(** Whatever error [Inventory.Get] returns, of the NotFound kind or not,
    the handler [get] answers with status 500. *)
Lemma get_inventory_error o r db (cluster strVersion : string) (configVersion : Z)
    (db' : DB) (err : error) :
  Vars r !! "cluster" = Some cluster ->
  Vars r !! "configVersion" = Some strVersion ->
  ParseInt strVersion = inl configVersion ->
  inv_Get (Inventory_ o) cluster configVersion db = (db', inr err) ->
  statusCode (snd (serve (callHandler o (get json_Encode)) r db))
    = Some StatusInternalServerError.
Proof.
  intros Hc Hv Hp Hg.
  unfold serve, callHandler, get, param_int64, param_string, newParam. simpl.
  rewrite Hc, Hv, Hp, Hg.
  apply finishRequest_written, sendError_statusCode. reflexivity.
Qed.

(** When [Inventory.GetLatest] returns an error of the NotFound kind, the
    handler [delete] answers with status 404 and does not call
    [Inventory.Delete]. *)
Lemma delete_not_found o r db (cluster : string) (db' : DB) (err : error) :
  Vars r !! "cluster" = Some cluster ->
  inv_GetLatest (Inventory_ o) cluster db = (db', inr err) ->
  IsNotFoundError err = true ->
  exists w,
    serve (callHandler o delete) r db = (db', w)
    /\ statusCode w = Some StatusNotFound.
Proof.
  intros Hc Hg Hn.
  unfold serve, callHandler, delete, param_string, newParam. simpl.
  rewrite Hc, Hg, Hn. eexists. split; [reflexivity|].
  apply finishRequest_written, sendError_statusCode. reflexivity.
Qed.

(** C8, as the code has it.  A DELETE of a cluster that exists, whose
    [Inventory.Delete] succeeds, writes neither a status code nor a body:
    the response goes out with the server's default status 200, its body
    and headers empty. *)
Theorem delete_success_status_200 o r db (cluster : string) (clusterState : State)
    (db1 db2 : DB) :
  Vars r !! "cluster" = Some cluster ->
  inv_GetLatest (Inventory_ o) cluster db = (db1, inl clusterState) ->
  inv_Delete (Inventory_ o) cluster db1 = (db2, None) ->
  serve (callHandler o delete) r db
    = (db2, {| Header := ∅; statusCode := Some StatusOK; body := "" |}).
Proof.
  intros Hc Hg Hd.
  unfold serve, callHandler, delete, param_string, newParam. simpl.
  rewrite Hc, Hg, Hd. reflexivity.
Qed.

End CmdSpec.

(** C8 on the in-memory inventory: deleting the known cluster [c1]. *)
Lemma delete_success_status_200_witness :
  exists db2,
    serve (callHandler Mem.options delete) (Mem.request_delete "c1") Mem.db_c1
      = (db2, {| Header := ∅; statusCode := Some 200; body := "" |}).
Proof.
  eexists.
  exact (delete_success_status_200 Mem.options (Mem.request_delete "c1") Mem.db_c1
           "c1" Mem.c1 Mem.db_c1 _ eq_refl eq_refl eq_refl).
Defined.

(** C8 as the claim states it fails: the DELETE of the known cluster [c1]
    succeeds ([GetLatest] finds it, [Delete] returns nil) and the response
    has status 200, not 204. *)
Lemma delete_success_is_not_204 :
  snd (inv_GetLatest Mem.mem_inventory "c1" Mem.db_c1) = inl Mem.c1
  /\ snd (inv_Delete Mem.mem_inventory "c1" Mem.db_c1) = None
  /\ statusCode (snd (serve (callHandler Mem.options delete)
                        (Mem.request_delete "c1") Mem.db_c1)) = Some 200
  /\ statusCode (snd (serve (callHandler Mem.options delete)
                        (Mem.request_delete "c1") Mem.db_c1)) <> Some StatusNoContent.
Proof.
  repeat split; try (vm_compute; reflexivity).
  vm_compute. discriminate.
Qed.

(** C4 at its failing input.  A GET of the status of the unknown cluster
    [c9]: [Inventory.Get] fails with an error of the NotFound kind, and
    [get] answers with status 500, where [delete] on the same unknown
    cluster answers with 404. *)
Theorem get_unknown_cluster_status_500 :
  (exists msg, snd (inv_Get Mem.mem_inventory "c9" 1 Mem.db_c1)
                 = inr (EntityNotFoundError msg))
  /\ statusCode (snd (serve (callHandler Mem.options (get Mem.mem_json_Encode))
                        (Mem.request_status "c9" "1") Mem.db_c1))
       = Some StatusInternalServerError
  /\ statusCode (snd (serve (callHandler Mem.options delete)
                        (Mem.request_delete "c9") Mem.db_c1))
       = Some StatusNotFound.
Proof.
  split; [|split].
  - eexists. vm_compute. reflexivity.
  - eapply (get_inventory_error Mem.mem_json_Encode Mem.options _ _ "c9" "1" 1);
      vm_compute; reflexivity.
  - vm_compute. reflexivity.
Qed.

End CmdSpec.

(** ** Properties of the component runner *)
Module RunnerSpec.
Import Runner.
Local Open Scope list_scope.

Lemma append_assoc (a b c : string) : (a +:+ b) +:+ c = a +:+ (b +:+ c).
Proof.
  induction a as [|x a IH]; [reflexivity|].
  change (String x ((a +:+ b) +:+ c) = String x (a +:+ (b +:+ c))).
  f_equal. exact IH.
Qed.

Lemma append_nil_r (a : string) : a +:+ "" = a.
Proof.
  induction a as [|x a IH]; [reflexivity|].
  change (String x (a +:+ "") = String x a). f_equal. exact IH.
Qed.

(** The header line of a manifest, as [fmt.Sprintf] renders it. *)
Lemma Sprintf_header (type component : string) :
  Sprintf ("# Manifest of %s '%s'" +:+ nl) [type; component]
  = "# Manifest of " +:+ type +:+ " '" +:+ component +:+ "'" +:+ nl.
Proof. reflexivity. Qed.

Section RunnerSpec.

Context {E V MT K CS U P W CB : Type}.
Context `{!EqDecision MT} `{!Stringer MT} `{!Stringer Resource}.
Variable CRD : MT.
Variable pkg : Packages E K CS U P W CB.

Implicit Types (w : World E W) (r : ComponentReconciler E V MT CS)
  (model : Reconciliation V) (manifests : list (Manifest MT)).

(** *** Rendering *)

Lemma writeManifests_spec model manifests (buffer : string) w :
  writeManifests CRD model manifests buffer w
  = ({| ext := ext w;
        log := rev (map illegalState (List.filter (unrequestedCRD CRD model) manifests)) ++ log w;
        calls := calls w |},
     buffer +:+ manifestBundle model manifests).
Proof.
  revert buffer w. induction manifests as [|manifest rest IH]; intros buffer w.
  - cbn [writeManifests manifestBundle List.filter map rev app]. unfold ret.
    rewrite append_nil_r. destruct w; reflexivity.
  - cbn [writeManifests List.filter manifestBundle]. unfold bind.
    fold (unrequestedCRD CRD model manifest).
    destruct (unrequestedCRD CRD model manifest) eqn:Hc.
    + unfold Error_, logger. rewrite IH. cbn [ext log calls map rev].
      rewrite <- app_assoc. cbn [app].
      f_equal. unfold manifestDocument. rewrite Sprintf_header, !append_assoc. reflexivity.
    + unfold ret. rewrite IH.
      f_equal. unfold manifestDocument. rewrite Sprintf_header, !append_assoc. reflexivity.
Qed.

Lemma renderManifest_spec r model w (e' : E) manifests :
  Manifests (chartProvider r) (newComponentSet model) (InstallCRD model)
    Build_chart_Options (ext w) = (e', inl manifests) ->
  renderManifest CRD r model w
  = ({| ext := e';
        log := rev (map illegalState (List.filter (unrequestedCRD CRD model) manifests))
               ++ {| level := DebugLevel;
                     message := Sprintf "Rendering of component '%s' returned %d manifests"
                                  [Component model; String_ (length manifests)] |}
               :: log w;
        calls := {| what := call_Manifests (InstallCRD model); failed := None |} :: calls w |},
     inl (manifestBundle model manifests)).
Proof.
  intros Hm. unfold renderManifest, bind, callv. rewrite Hm.
  unfold Debug, logger. rewrite writeManifests_spec. unfold ret.
  cbn [ext log calls errOf]. reflexivity.
Qed.

(** C9. Whatever list of manifests the chart provider returns,
    [renderManifest] returns the bundle holding every one of them, in the
    provider's order, each after a [---] separator line and its comment
    header.  Nothing is asked of the manifests' types or of
    [model.InstallCRD]: a manifest of type CRD is in the bundle also when
    no CRDs were requested. *)
Theorem renderManifest_bundle r model w (e' : E) manifests :
  Manifests (chartProvider r) (newComponentSet model) (InstallCRD model)
    Build_chart_Options (ext w) = (e', inl manifests) ->
  snd (renderManifest CRD r model w) = inl (manifestBundle model manifests).
Proof.
  intros Hm. rewrite (renderManifest_spec _ _ _ _ _ Hm). reflexivity.
Qed.

(** C5. With [model.InstallCRD = false], manifests of type CRD among
    those the chart provider returns do not make [renderManifest] fail:
    it returns a bundle and a nil error, and each such manifest is in the
    log as an illegal state, at error level. *)
Theorem renderManifest_unrequested_CRD r model w (e' : E) manifests :
  InstallCRD model = false ->
  Manifests (chartProvider r) (newComponentSet model) (InstallCRD model)
    Build_chart_Options (ext w) = (e', inl manifests) ->
  exists w' bundle,
    renderManifest CRD r model w = (w', inl bundle)
    /\ forall manifest,
         In manifest manifests -> Type_ manifest = CRD ->
         In (illegalState manifest) (log w').
Proof.
  intros Hcrd Hm. rewrite (renderManifest_spec _ _ _ _ _ Hm).
  eexists _, _. split; [reflexivity|].
  intros manifest Hin Htype. cbn [log].
  apply in_or_app. left. apply -> in_rev. apply in_map.
  apply filter_In. split; [exact Hin|].
  unfold unrequestedCRD. rewrite Hcrd, Htype.
  rewrite bool_decide_eq_true_2; reflexivity.
Qed.

(** *** Progress tracking *)

Lemma addResources_spec (pt : P) (resources : list Resource) w :
  ext (fst (addResources pkg pt resources w)) = addAll pkg pt (watchables pkg resources) (ext w)
  /\ calls (fst (addResources pkg pt resources w))
     = addCalls (watchables pkg resources) ++ calls w.
Proof.
  revert w. induction resources as [|resource rest IH]; intros w.
  - split; reflexivity.
  - cbn [addResources watchables].
    destruct (progress_NewWatchableResource pkg (Kind resource)) as [watchable|err].
    + unfold bind, callu. destruct (IH
        {| ext := Tracker_AddResource pkg pt watchable (res_Namespace resource)
                    (res_Name resource) (ext w);
           log := log w;
           calls := {| what := call_AddResource watchable (res_Namespace resource)
                                 (res_Name resource);
                       failed := None |} :: calls w |}) as [He Hc].
      split.
      * rewrite He. reflexivity.
      * rewrite Hc. unfold addCalls. cbn [map rev ext calls].
        rewrite <- app_assoc. reflexivity.
    + unfold bind, Debug, logger.
      destruct (IH {| ext := ext w;
                      log := {| level := DebugLevel;
                                message := Sprintf "Ignoring non-watchable resource: %s"
                                             [String_ resource] |} :: log w;
                      calls := calls w |}) as [He Hc].
      split; [rewrite He | rewrite Hc]; reflexivity.
Qed.

(** A resource whose kind does not convert is not among the watchables. *)
Lemma watchables_skip (before after : list Resource) (resource : Resource) (err : error) :
  progress_NewWatchableResource pkg (Kind resource) = inr err ->
  watchables pkg (before ++ resource :: after) = watchables pkg (before ++ after).
Proof.
  intros Hk. induction before as [|x before IH]; cbn [app watchables].
  - rewrite Hk. reflexivity.
  - rewrite IH. reflexivity.
Qed.

Lemma trackProgress_spec r (manifest : string) (kubeClient : K) w
    (e1 e2 e3 : E) (clientSet : CS) (pt : P) (resources : list Resource) :
  Client_Clientset pkg kubeClient (ext w) = (e1, inl clientSet) ->
  progress_NewProgressTracker pkg clientSet (debug r)
    {| pt_Timeout := pt_Timeout (progressTrackerConfig r);
       pt_Interval := pt_Interval (progressTrackerConfig r) |} e1 = (e2, inl pt) ->
  Client_DeployedResources pkg kubeClient manifest e2 = (e3, inl resources) ->
  exists l,
    trackProgress pkg r manifest kubeClient w
    = call call_Watch (Tracker_Watch pkg pt)
        {| ext := addAll pkg pt (watchables pkg resources) e3;
           log := l;
           calls := addCalls (watchables pkg resources)
                    ++ {| what := call_DeployedResources manifest; failed := None |}
                    :: {| what := call_NewProgressTracker; failed := None |}
                    :: {| what := call_Clientset; failed := None |}
                    :: calls w |}.
Proof.
  intros Hc Ht Hd.
  unfold trackProgress, bind, callv. rewrite Hc. cbn [ext]. rewrite Ht. cbn [ext].
  rewrite Hd.
  match goal with |- context [addResources pkg pt resources ?w0] =>
    destruct (addResources_spec pt resources w0) as [He Hcs];
    destruct (addResources pkg pt resources w0) as [w1 []] end.
  cbn [fst ext calls errOf] in He, Hcs.
  unfold Debug, logger, call. cbn [ext log calls]. rewrite He, Hcs.
  eexists. reflexivity.
Qed.

(** C7. Once the client set, the tracker and the deployed resources are
    obtained, [trackProgress] adds to the tracker exactly the resources
    whose kind converts to a watchable one, in order, and returns what
    [Watch] returns on that tracker.  A resource of another kind is
    skipped: the calls, the tracker and the result are those of the list
    without it. *)
Theorem trackProgress_skips_unwatchable r (manifest : string) (kubeClient : K) w
    (e1 e2 e3 : E) (clientSet : CS) (pt : P) (resources : list Resource) :
  Client_Clientset pkg kubeClient (ext w) = (e1, inl clientSet) ->
  progress_NewProgressTracker pkg clientSet (debug r)
    {| pt_Timeout := pt_Timeout (progressTrackerConfig r);
       pt_Interval := pt_Interval (progressTrackerConfig r) |} e1 = (e2, inl pt) ->
  Client_DeployedResources pkg kubeClient manifest e2 = (e3, inl resources) ->
  (ext (fst (trackProgress pkg r manifest kubeClient w)),
   snd (trackProgress pkg r manifest kubeClient w))
    = Tracker_Watch pkg pt (addAll pkg pt (watchables pkg resources) e3)
  /\ calls (fst (trackProgress pkg r manifest kubeClient w))
     = {| what := call_Watch; failed := snd (trackProgress pkg r manifest kubeClient w) |}
         :: addCalls (watchables pkg resources)
         ++ {| what := call_DeployedResources manifest; failed := None |}
         :: {| what := call_NewProgressTracker; failed := None |}
         :: {| what := call_Clientset; failed := None |}
         :: calls w
  /\ (forall before resource after err,
         resources = before ++ resource :: after ->
         progress_NewWatchableResource pkg (Kind resource) = inr err ->
         watchables pkg resources = watchables pkg (before ++ after)).
Proof.
  intros Hc Ht Hd.
  destruct (trackProgress_spec r manifest kubeClient w _ _ _ _ _ _ Hc Ht Hd) as [l ->].
  unfold call. cbn [ext log calls].
  destruct (Tracker_Watch pkg pt (addAll pkg pt (watchables pkg resources) e3)) as [e4 err].
  cbn [fst snd ext calls].
  split; [reflexivity|]. split; [reflexivity|].
  intros before resource after err' -> Hk. eapply watchables_skip; eauto.
Qed.

(** *** One attempt *)

(** C6. When a pre-install hook is registered and returns an error,
    [reconcile] returns that error at once: after creating the client
    and its client set it calls the hook and nothing else, so neither the
    install action, nor the default install, nor the post-install hook
    runs in that attempt. *)
Theorem reconcile_preInstall_failure r model w (e1 e2 e3 : E) (kubeClient : K)
    (clientSet : CS) (action : Action E CS) (err : error) :
  kubernetes_NewKubernetesClient pkg (Kubeconfig model) (ext w) = (e1, inl kubeClient) ->
  Client_Clientset pkg kubeClient e1 = (e2, inl clientSet) ->
  preInstallAction r = Some action ->
  Action_Run action (Version model) clientSet e2 = (e3, Some err) ->
  exists w',
    reconcile CRD pkg r model w = (w', Some err)
    /\ ext w' = e3
    /\ calls w' = {| what := call_preInstallAction (Version model); failed := Some err |}
                    :: {| what := call_Clientset; failed := None |}
                    :: {| what := call_NewKubernetesClient (Kubeconfig model); failed := None |}
                    :: calls w
    /\ (forall ev, In ev (calls w') -> isInstallCall ev = true -> In ev (calls w)).
Proof.
  intros Hk Hc Hp Hr.
  unfold reconcile, bind, callv, call. rewrite Hk. cbn [ext]. rewrite Hc, Hp.
  cbn [ext]. rewrite Hr. unfold Warn, logger, ret.
  eexists. split; [reflexivity|]. cbn [ext calls].
  split; [reflexivity|]. split; [reflexivity|].
  intros ev [<-|[<-|[<-|Hin]]] Hi; try discriminate Hi. exact Hin.
Qed.

(** *** The calls made by one attempt *)

(** [adds] at the types of this section. *)
Local Abbreviation addsR := (@adds E W _).

Lemma adds_ret {A : Type} (a : A) : addsR (ret a).
Proof. intros w. exists []. split; reflexivity. Qed.

Lemma adds_logger (lvl : Level) (msg : string) : addsR (logger lvl msg).
Proof. intros w. exists []. split; reflexivity. Qed.

Lemma adds_bind {A B : Type} (m : M E W A) (k : A -> M E W B) :
  adds m -> (forall a, addsR (k a)) -> addsR (bind m k).
Proof.
  intros Hm Hk w. unfold bind. destruct (Hm w) as [d1 [H1 F1]].
  destruct (m w) as [w1 a]. cbn [fst] in H1.
  destruct (Hk a w1) as [d2 [H2 F2]]. exists (d2 ++ d1). split.
  - rewrite H2, H1. apply app_assoc.
  - rewrite forallb_app, F1, F2. reflexivity.
Qed.

Lemma adds_call (c : Call W) (f : E -> E * option error) :
  (forall err, isReconcileCall {| what := c; failed := err |} = true) -> addsR (call c f).
Proof.
  intros Hc w. unfold call. destruct (f (ext w)) as [e' err].
  exists [{| what := c; failed := err |}]. split; [reflexivity|].
  cbn [forallb]. rewrite Hc. reflexivity.
Qed.

Lemma adds_callv {A : Type} (c : Call W) (f : E -> E * (A + error)) :
  (forall err, isReconcileCall {| what := c; failed := err |} = true) -> addsR (callv c f).
Proof.
  intros Hc w. unfold callv. destruct (f (ext w)) as [e' a].
  exists [{| what := c; failed := errOf a |}]. split; [reflexivity|].
  cbn [forallb]. rewrite Hc. reflexivity.
Qed.

Lemma adds_callu (c : Call W) (f : E -> E) :
  isReconcileCall {| what := c; failed := None |} = true -> addsR (callu c f).
Proof.
  intros Hc w. exists [{| what := c; failed := None |}]. split; [reflexivity|].
  cbn [forallb]. rewrite Hc. reflexivity.
Qed.

Create HintDb adds discriminated.

Ltac adds_step :=
  first
    [ solve [auto 1 with adds nocore]
    | apply adds_ret
    | apply adds_logger
    | apply adds_call; intros ?; reflexivity
    | apply adds_callv; intros ?; reflexivity
    | apply adds_callu; reflexivity
    | apply adds_bind; [|intros ?]
    | match goal with
      | |- adds (match ?x with _ => _ end) => destruct x
      | |- adds (if ?b then _ else _) => destruct b
      end ].

Lemma adds_writeManifests model manifests (buffer : string) :
  addsR (writeManifests CRD model manifests buffer).
Proof.
  revert buffer. induction manifests as [|manifest rest IH]; intros buffer;
    cbn [writeManifests]; unfold Error_; repeat adds_step.
Qed.
#[local] Hint Resolve adds_writeManifests : adds.

Lemma adds_renderManifest r model : addsR (renderManifest CRD r model).
Proof. unfold renderManifest, Warn, Debug; repeat adds_step. Qed.
#[local] Hint Resolve adds_renderManifest : adds.

Lemma adds_addResources (pt : P) (resources : list Resource) :
  addsR (addResources pkg pt resources).
Proof.
  induction resources as [|resource rest IH]; cbn [addResources]; unfold Debug;
    repeat adds_step.
Qed.
#[local] Hint Resolve adds_addResources : adds.

Lemma adds_trackProgress r (manifest : string) (kubeClient : K) :
  addsR (trackProgress pkg r manifest kubeClient).
Proof. unfold trackProgress, Debug; repeat adds_step. Qed.
#[local] Hint Resolve adds_trackProgress : adds.

Lemma adds_install r model (kubeClient : K) : addsR (install CRD pkg r model kubeClient).
Proof. unfold install, Warn; repeat adds_step. Qed.
#[local] Hint Resolve adds_install : adds.

Lemma adds_reconcile r model : addsR (reconcile CRD pkg r model).
Proof. unfold reconcile, Warn; repeat adds_step. Qed.

(** *** The retry loop *)

Lemma quiet_spec (ev : Event W) :
  quiet ev = true ->
  isRunning ev = false /\ isWait ev = false /\ isAttempt ev = false
  /\ isSuccess ev = false /\ isError ev = false.
Proof.
  unfold quiet, isRunning, isWait, isAttempt, isSuccess, isError.
  destruct (what ev); cbn; intros Hq; try discriminate Hq; repeat split; reflexivity.
Qed.

Lemma reconcile_quiet (ev : Event W) : isReconcileCall ev = true -> quiet ev = true.
Proof.
  unfold isReconcileCall, quiet, isRunning, isWait, isAttempt, isSuccess, isError.
  destruct (what ev); cbn; intros Hq; try discriminate Hq; reflexivity.
Qed.

Lemma forallb_reconcile_quiet (added : list (Event W)) :
  forallb isReconcileCall added = true -> forallb quiet added = true.
Proof.
  induction added as [|ev rest IH]; cbn [forallb]; [reflexivity|].
  intros [Hev Hrest]%andb_prop. rewrite (reconcile_quiet _ Hev), (IH Hrest). reflexivity.
Qed.

Lemma precededBy_quiet (Pr Qr : Event W -> bool) (added trace : list (Event W)) :
  (forall ev, quiet ev = true -> Qr ev = false) ->
  forallb quiet added = true ->
  precededBy Pr Qr (added ++ trace) = precededBy Pr Qr trace.
Proof.
  intros HQ. induction added as [|ev rest IH]; cbn [forallb app precededBy]; [reflexivity|].
  intros [Hev Hrest]%andb_prop. rewrite (HQ _ Hev), (IH Hrest). reflexivity.
Qed.

Lemma existsb_quiet (Qr : Event W -> bool) (added trace : list (Event W)) :
  (forall ev, quiet ev = true -> Qr ev = false) ->
  forallb quiet added = true ->
  existsb Qr (added ++ trace) = existsb Qr trace.
Proof.
  intros HQ. induction added as [|ev rest IH]; cbn [forallb app existsb]; [reflexivity|].
  intros [Hev Hrest]%andb_prop. rewrite (HQ _ Hev), (IH Hrest). reflexivity.
Qed.

Lemma attempts_quiet (added trace : list (Event W)) :
  forallb quiet added = true -> attempts (added ++ trace) = attempts trace.
Proof.
  unfold attempts.
  induction added as [|ev rest IH]; cbn [forallb app List.filter]; [reflexivity|].
  intros [Hev Hrest]%andb_prop.
  destruct (quiet_spec _ Hev) as (_ & _ & -> & _). exact (IH Hrest).
Qed.

Lemma quiet_failedAttempt (ev : Event W) : quiet ev = true -> failedAttempt ev = false.
Proof. intros (_ & _ & Ha & _)%quiet_spec. unfold failedAttempt. rewrite Ha. reflexivity. Qed.

Lemma quiet_succeededAttempt (ev : Event W) : quiet ev = true -> succeededAttempt ev = false.
Proof. intros (_ & _ & Ha & _)%quiet_spec. unfold succeededAttempt. rewrite Ha. reflexivity. Qed.

Lemma quiet_isRunning (ev : Event W) : quiet ev = true -> isRunning ev = false.
Proof. intros (Ha & _)%quiet_spec. exact Ha. Qed.

Lemma quiet_isWait (ev : Event W) : quiet ev = true -> isWait ev = false.
Proof. intros (_ & Ha & _)%quiet_spec. exact Ha. Qed.

Lemma quiet_isSuccess (ev : Event W) : quiet ev = true -> isSuccess ev = false.
Proof. intros (_ & _ & _ & Ha & _)%quiet_spec. exact Ha. Qed.

Lemma quiet_isError (ev : Event W) : quiet ev = true -> isError ev = false.
Proof. intros (_ & _ & _ & _ & Ha)%quiet_spec. exact Ha. Qed.

Lemma Good_nil : Good ([] : list (Event W)).
Proof. split; reflexivity. Qed.

Lemma Good_app_quiet (added trace : list (Event W)) :
  forallb quiet added = true -> Good trace -> Good (added ++ trace).
Proof.
  intros Hq [H1 H2 H3 H4 H5]. split.
  - rewrite precededBy_quiet; auto using quiet_failedAttempt.
  - rewrite precededBy_quiet; auto using quiet_isRunning.
  - rewrite precededBy_quiet; auto using quiet_isWait.
  - rewrite existsb_quiet; auto using quiet_isSuccess.
  - rewrite existsb_quiet; auto using quiet_isError.
Qed.

Lemma Good_cons_quiet (ev : Event W) (trace : list (Event W)) :
  quiet ev = true -> Good trace -> Good (ev :: trace).
Proof.
  intros Hq. apply (Good_app_quiet [ev]). cbn [forallb]. rewrite Hq. reflexivity.
Qed.

Lemma Good_cons_Running (f : option error) (before : Event W)
    (earlier : list (Event W)) :
  beforeAttempt before = true ->
  Good (before :: earlier) ->
  Good ({| what := call_Running; failed := f |} :: before :: earlier).
Proof.
  intros Hs [H1 H2 H3 H4 H5]. split.
  - cbn [precededBy] in *. exact H1.
  - change (beforeAttempt before
            && precededBy beforeAttempt isRunning (before :: earlier) = true).
    rewrite Hs, H2. reflexivity.
  - exact H3.
  - exact H4.
  - exact H5.
Qed.

Lemma Good_cons_attempt (n : nat) (f : option error) (before : Event W)
    (earlier : list (Event W)) :
  (f <> None -> endOfFailedAttempt before = true) ->
  Good (before :: earlier) ->
  Good ({| what := retry_attempt n; failed := f |} :: before :: earlier).
Proof.
  intros Hs [H1 H2 H3 H4 H5]. split.
  - change ((if failedAttempt ({| what := retry_attempt n; failed := f |} : Event W)
             then endOfFailedAttempt before else true)
            && precededBy endOfFailedAttempt failedAttempt (before :: earlier) = true).
    rewrite H1. destruct f as [err|]; cbn.
    + rewrite Hs by discriminate. reflexivity.
    + reflexivity.
  - exact H2.
  - exact H3.
  - exact H4.
  - exact H5.
Qed.

Lemma Good_cons_wait (d : Z) (f : option error) (before : Event W)
    (earlier : list (Event W)) :
  failedAttempt before = true ->
  Good (before :: earlier) ->
  Good ({| what := retry_wait d; failed := f |} :: before :: earlier).
Proof.
  intros Hs [H1 H2 H3 H4 H5]. split.
  - exact H1.
  - exact H2.
  - change (failedAttempt before && precededBy failedAttempt isWait (before :: earlier) = true).
    rewrite Hs, H3. reflexivity.
  - exact H4.
  - exact H5.
Qed.

(** Neither rule of [Linked] speaks about an event that is not a wait and
    comes after an event that is not a failed call of [Running()]. *)
Lemma returnsRunningError_skip (before ev : Event W) :
  failedRunning before = false -> returnsRunningError before ev.
Proof.
  unfold failedRunning, isRunning, succeeded, returnsRunningError.
  intros Hb Hw err Hf. rewrite Hw, Hf in Hb. discriminate Hb.
Qed.

Lemma waitsDelayOf_skip (config : retry_Config) (before ev : Event W) :
  isWait ev = false -> waitsDelayOf pkg config before ev.
Proof.
  unfold isWait, waitsDelayOf. intros Hb d Hw. rewrite Hw in Hb. discriminate Hb.
Qed.

Lemma quiet_failedRunning (ev : Event W) : quiet ev = true -> failedRunning ev = false.
Proof. intros Hq. unfold failedRunning. rewrite (quiet_isRunning _ Hq). reflexivity. Qed.

Lemma beforeAttempt_isRunning (ev : Event W) : beforeAttempt ev = true -> isRunning ev = false.
Proof.
  unfold beforeAttempt, isContextErr, isWait, isRunning.
  destruct (what ev); cbn; intros Hb; try discriminate Hb; reflexivity.
Qed.

Lemma Linked_nil (config : retry_Config) : Linked pkg config ([] : list (Event W)).
Proof. split; exact I. Qed.

Lemma Linked_cons (config : retry_Config) (ev before : Event W) (earlier : list (Event W)) :
  returnsRunningError before ev ->
  waitsDelayOf pkg config before ev ->
  Linked pkg config (before :: earlier) ->
  Linked pkg config (ev :: before :: earlier).
Proof. intros Hr Hw [H1 H2]. split; (split; [assumption|assumption]). Qed.

Lemma Linked_cons_skip (config : retry_Config) (ev : Event W) (trace : list (Event W)) :
  isWait ev = false ->
  match trace with
  | before :: _ => failedRunning before = false
  | [] => True
  end ->
  Linked pkg config trace ->
  Linked pkg config (ev :: trace).
Proof.
  intros Hw Hb Hl. destruct trace as [|before earlier].
  - split; (split; [exact I|exact I]).
  - apply Linked_cons;
      [apply returnsRunningError_skip; exact Hb|apply waitsDelayOf_skip; exact Hw|exact Hl].
Qed.

Lemma Linked_app_quiet (config : retry_Config) (added : list (Event W)) (before : Event W)
    (earlier : list (Event W)) :
  forallb quiet added = true ->
  added = [] \/ failedRunning before = false ->
  Linked pkg config (before :: earlier) ->
  Linked pkg config (added ++ before :: earlier).
Proof.
  intros Hq Hb Hl. induction added as [|ev rest IH]; [exact Hl|].
  cbn [forallb] in Hq. apply andb_prop in Hq as [Hev Hrest].
  destruct Hb as [Hb|Hb]; [discriminate Hb|].
  change ((ev :: rest) ++ before :: earlier) with (ev :: (rest ++ before :: earlier)).
  apply Linked_cons_skip.
  - exact (quiet_isWait _ Hev).
  - destruct rest as [|ev' rest']; cbn [app].
    + exact Hb.
    + cbn [forallb] in Hrest. apply andb_prop in Hrest as [Hev' _].
      exact (quiet_failedRunning _ Hev').
  - apply IH; [exact Hrest|right; exact Hb].
Qed.

Lemma retryable_attemptBody r model (statusUpdater : U) :
  attemptBody (retryable CRD pkg r model statusUpdater).
Proof.
  intros w. unfold retryable, bind, call.
  destruct (Updater_Running pkg statusUpdater (ext w)) as [e1 [err|]].
  - exists [], (Some err). cbn [fst snd calls app forallb].
    split; [reflexivity|]. split; [reflexivity|]. split.
    + intros _. eexists _, _. split; reflexivity.
    + intros err' [= <-]. split; reflexivity.
  - match goal with |- context [reconcile CRD pkg r model ?w1] =>
      destruct (adds_reconcile r model w1) as [added [Ha Fa]];
      destruct (reconcile CRD pkg r model w1) as [w2 [err|]] end;
      cbn [fst calls] in Ha.
    + destruct (Updater_Failed pkg statusUpdater (ext w2)) as [e3 f].
      exists ({| what := call_Failed; failed := f |} :: added), None.
      assert (Hc : forall res : option error,
                 calls (fst (match f with
                        | Some err' => ret (Some err')
                        | None => ret (Some err)
                        end {| ext := e3; log := log w2;
                               calls := {| what := call_Failed; failed := f |} :: calls w2 |}))
                 = {| what := call_Failed; failed := f |} :: calls w2).
      { intros _. destruct f; reflexivity. }
      rewrite (Hc None), Ha. split; [reflexivity|]. split; [|split].
      * cbn [forallb]. rewrite (forallb_reconcile_quiet _ Fa). reflexivity.
      * intros _. eexists _, _. split; reflexivity.
      * discriminate.
    + exists added, None. unfold ret. cbn [fst snd calls]. rewrite Ha.
      split; [reflexivity|]. split; [exact (forallb_reconcile_quiet _ Fa)|].
      split; [intros Hne; congruence|discriminate].
Qed.

(** One round of the loop, spelled out. *)
Lemma retry_loop_S (body : M E W (option error)) (config : retry_Config)
    (left' n : nat) (errorLog : list error) w :
  retry_loop pkg body config (S left') n errorLog w
  = let '(w1, res) := body w in
    let w2 := {| ext := ext w1; log := log w1;
                 calls := {| what := retry_attempt n; failed := res |} :: calls w1 |} in
    match res with
    | None => (w2, None)
    | Some err =>
        let errorLog' := errorLog ++ [unpackUnrecoverable err] in
        if negb (IsRecoverable err) then (w2, retry_result config errorLog')
        else
          match left' with
          | O => (w2, retry_result config errorLog')
          | S _ =>
              let '(e3, delayTime) := retry_delayType pkg n err config (ext w2) in
              let '(e4, done) := context_wait pkg delayTime e3 in
              let w3 := {| ext := e4; log := log w2;
                           calls := {| what := retry_wait delayTime; failed := done |}
                                    :: calls w2 |} in
              match done with
              | Some ctxErr => (w3, Some ctxErr)
              | None => retry_loop pkg body config left' (S n) errorLog' w3
              end
          end
    end.
Proof.
  cbn [retry_loop]. unfold bind, record, call, ret, lift.
  destruct (body w) as [w1 [err|]]; [|reflexivity].
  destruct (negb (IsRecoverable err)); [reflexivity|].
  destruct left' as [|left'']; [reflexivity|].
  cbn [ext log calls].
  destruct (retry_delayType pkg n err config (ext w1)) as [e3 delayTime].
  cbn [ext log calls].
  destruct (context_wait pkg delayTime e3) as [e4 [ctxErr|]]; reflexivity.
Qed.

Lemma retry_loop_Good (body : M E W (option error)) (config : retry_Config) :
  attemptBody body ->
  LastErrorOnly config = false ->
  forall (left n : nat) (errorLog : list error) w,
    Good (calls w) ->
    (exists ev earlier, calls w = ev :: earlier /\ beforeAttempt ev = true) ->
    existsb succeededAttempt (calls w) = false ->
    Good (calls (fst (retry_loop pkg body config left n errorLog w)))
    /\ (attempts (calls (fst (retry_loop pkg body config left n errorLog w)))
        <= attempts (calls w) + left)%nat
    /\ existsb succeededAttempt (calls (fst (retry_loop pkg body config left n errorLog w)))
       = match snd (retry_loop pkg body config left n errorLog w) with
         | None => true
         | Some _ => false
         end.
Proof.
  intros Hbody Hlast. induction left as [|left' IH]; intros n errorLog w Hg Hhead Hnone.
  - cbn [retry_loop]. unfold ret, retry_result. rewrite Hlast. cbn [fst snd].
    split; [exact Hg|]. split; [lia|exact Hnone].
  - rewrite retry_loop_S.
    destruct (Hbody w) as (added & f & Hc & Hq & Hend & _).
    destruct (body w) as [w1 res]. cbn [fst snd] in Hc, Hend.
    destruct Hhead as (ev0 & earlier0 & Hw & Hstart).
    assert (Hg1 : Good (calls w1)).
    { rewrite Hc. apply Good_app_quiet; [exact Hq|]. rewrite Hw.
      apply Good_cons_Running; [exact Hstart|]. rewrite <- Hw. exact Hg. }
    assert (Ha1 : attempts (calls w1) = attempts (calls w)).
    { rewrite Hc, attempts_quiet by exact Hq. reflexivity. }
    assert (Hn1 : existsb succeededAttempt (calls w1) = false).
    { rewrite Hc, existsb_quiet by auto using quiet_succeededAttempt. exact Hnone. }
    assert (Hne : exists ev1 earlier1, calls w1 = ev1 :: earlier1).
    { rewrite Hc. destruct added; eexists _, _; reflexivity. }
    destruct Hne as (ev1 & earlier1 & Hw1).
    cbv zeta.
    set (w2 := {| ext := ext w1; log := log w1;
                  calls := {| what := retry_attempt n; failed := res |} :: calls w1 |}).
    assert (Hg2 : Good (calls w2)).
    { unfold w2. cbn [calls]. rewrite Hw1. apply Good_cons_attempt.
      - intros Hres. destruct (Hend Hres) as (ev & earlier & He & Hf).
        rewrite Hw1 in He. injection He as <- _. exact Hf.
      - rewrite <- Hw1. exact Hg1. }
    assert (Ha2 : attempts (calls w2) = S (attempts (calls w))).
    { unfold w2. cbn [calls]. unfold attempts in *. cbn [List.filter isAttempt what length].
      rewrite Ha1. reflexivity. }
    destruct res as [err|].
    + assert (Hn2 : existsb succeededAttempt (calls w2) = false).
      { unfold w2. cbn [calls existsb]. rewrite Hn1. reflexivity. }
      assert (Hstop : forall errorLog',
                 Good (calls (fst (w2, retry_result config errorLog')))
                 /\ (attempts (calls (fst (w2, retry_result config errorLog')))
                     <= attempts (calls w) + S left')%nat
                 /\ existsb succeededAttempt (calls (fst (w2, retry_result config errorLog')))
                    = match snd (w2, retry_result config errorLog') with
                      | None => true
                      | Some _ => false
                      end).
      { intros errorLog'. unfold retry_result. rewrite Hlast. cbn [fst snd].
        split; [exact Hg2|]. split; [lia|exact Hn2]. }
      destruct (negb (IsRecoverable err)); [apply Hstop|].
      destruct left' as [|left'']; [apply Hstop|].
      destruct (retry_delayType pkg n err config (ext w2)) as [e3 delayTime].
      destruct (context_wait pkg delayTime e3) as [e4 done].
      set (w3 := {| ext := e4; log := log w2;
                    calls := {| what := retry_wait delayTime; failed := done |}
                             :: calls w2 |}).
      assert (Hg3 : Good (calls w3)).
      { unfold w3, w2. cbn [calls]. apply Good_cons_wait; [reflexivity|]. exact Hg2. }
      assert (Ha3 : attempts (calls w3) = S (attempts (calls w))).
      { unfold w3. cbn [calls]. unfold attempts in *.
        cbn [List.filter isAttempt what length]. exact Ha2. }
      assert (Hn3 : existsb succeededAttempt (calls w3) = false).
      { unfold w3. cbn [calls existsb]. exact Hn2. }
      destruct done as [ctxErr|].
      * cbn [fst snd]. split; [exact Hg3|]. split; [lia|exact Hn3].
      * destruct (IH (S n) (errorLog ++ [unpackUnrecoverable err]) w3 Hg3) as (G & A & X).
        -- eexists _, _. split; reflexivity.
        -- exact Hn3.
        -- split; [exact G|]. split; [lia|exact X].
    + cbn [fst snd]. split; [exact Hg2|]. split; [lia|].
      unfold w2. cbn [calls existsb]. reflexivity.
Qed.

Lemma retry_Do_Good (body : M E W (option error)) (config : retry_Config) w :
  attemptBody body ->
  LastErrorOnly config = false ->
  Good (calls w) ->
  existsb succeededAttempt (calls w) = false ->
  Good (calls (fst (retry_Do pkg body config w)))
  /\ (attempts (calls (fst (retry_Do pkg body config w)))
      <= attempts (calls w) + Z.to_nat (Attempts config))%nat
  /\ existsb succeededAttempt (calls (fst (retry_Do pkg body config w)))
     = match snd (retry_Do pkg body config w) with
       | None => true
       | Some _ => false
       end.
Proof.
  intros Hbody Hlast Hg Hnone. unfold retry_Do, bind, call.
  destruct (context_Err pkg (ext w)) as [e1 [err|]].
  - unfold ret. cbn [fst snd calls]. split.
    + apply Good_cons_quiet; [reflexivity|exact Hg].
    + split; [|exact Hnone]. unfold attempts. cbn [List.filter isAttempt what]. lia.
  - set (w1 := {| ext := e1; log := log w;
                  calls := {| what := retry_contextErr; failed := None |} :: calls w |}).
    destruct (retry_loop_Good body config Hbody Hlast (Z.to_nat (Attempts config)) 0 [] w1)
      as (G & A & X).
    + unfold w1. cbn [calls]. apply Good_cons_quiet; [reflexivity|exact Hg].
    + eexists _, _. split; reflexivity.
    + unfold w1. cbn [calls existsb]. exact Hnone.
    + split; [exact G|]. split; [|exact X].
      unfold w1 in A. unfold attempts in *. cbn [calls List.filter isAttempt what] in A.
      exact A.
Qed.

(** Why the loop ends: an attempt succeeded, an error was not
    recoverable, the context ended, or all attempts were made. *)
Local Abbreviation ended trace made :=
  (existsb succeededAttempt trace = true
   \/ existsb unrecoverableAttempt trace = true
   \/ existsb contextEnded trace = true
   \/ attempts trace = made).

Lemma retry_loop_Linked (body : M E W (option error)) (config : retry_Config) :
  attemptBody body ->
  forall (left n : nat) (errorLog : list error) w,
    Linked pkg config (calls w) ->
    (exists ev earlier, calls w = ev :: earlier /\ beforeAttempt ev = true) ->
    Linked pkg config (calls (fst (retry_loop pkg body config left n errorLog w)))
    /\ (exists ev earlier,
          calls (fst (retry_loop pkg body config left n errorLog w)) = ev :: earlier
          /\ failedRunning ev = false)
    /\ ended (calls (fst (retry_loop pkg body config left n errorLog w)))
         (attempts (calls w) + left)%nat.
Proof.
  intros Hbody. induction left as [|left' IH]; intros n errorLog w Hl Hhead.
  - cbn [retry_loop]. unfold ret. cbn [fst].
    split; [exact Hl|]. split.
    + destruct Hhead as (ev & earlier & Hw & Hstart). exists ev, earlier.
      split; [exact Hw|]. unfold failedRunning.
      rewrite (beforeAttempt_isRunning _ Hstart). reflexivity.
    + right. right. right. lia.
  - rewrite retry_loop_S.
    destruct (Hbody w) as (added & f & Hc & Hq & _ & Hrun).
    destruct (body w) as [w1 res]. cbn [fst snd] in Hc, Hrun.
    destruct Hhead as (ev0 & earlier0 & Hw & Hstart).
    assert (Hl1 : Linked pkg config (calls w1)).
    { rewrite Hc. apply Linked_app_quiet; [exact Hq| |].
      - destruct f as [err|]; [left; exact (proj1 (Hrun err eq_refl))|right; reflexivity].
      - apply Linked_cons_skip; [reflexivity| |exact Hl].
        rewrite Hw. unfold failedRunning.
        rewrite (beforeAttempt_isRunning _ Hstart). reflexivity. }
    assert (Ha1 : attempts (calls w1) = attempts (calls w)).
    { rewrite Hc, attempts_quiet by exact Hq. reflexivity. }
    cbv zeta.
    set (w2 := {| ext := ext w1; log := log w1;
                  calls := {| what := retry_attempt n; failed := res |} :: calls w1 |}).
    assert (Hl2 : Linked pkg config (calls w2)).
    { unfold w2. cbn [calls]. rewrite Hc. destruct added as [|ev1 added'].
      - cbn [app]. apply Linked_cons.
        + intros _ err Hf. cbn [failed] in Hf. exists n.
          rewrite (proj2 (Hrun err Hf)). reflexivity.
        + apply waitsDelayOf_skip. reflexivity.
        + rewrite Hc in Hl1. exact Hl1.
      - apply Linked_cons_skip; [reflexivity| |rewrite Hc in Hl1; exact Hl1].
        cbn [app]. cbn [forallb] in Hq. apply andb_prop in Hq as [Hev1 _].
        exact (quiet_failedRunning _ Hev1). }
    assert (Ha2 : attempts (calls w2) = S (attempts (calls w))).
    { unfold w2. cbn [calls]. unfold attempts in *. cbn [List.filter isAttempt what length].
      rewrite Ha1. reflexivity. }
    assert (Hh2 : exists ev earlier, calls w2 = ev :: earlier /\ failedRunning ev = false).
    { eexists _, _. split; reflexivity. }
    destruct res as [err|].
    + destruct (negb (IsRecoverable err)) eqn:Hrec.
      { cbn [fst]. split; [exact Hl2|]. split; [exact Hh2|].
        right. left. unfold w2. cbn [calls existsb].
        unfold unrecoverableAttempt at 1. cbn [isAttempt what failed andb].
        rewrite Hrec. reflexivity. }
      destruct left' as [|left''].
      { cbn [fst]. split; [exact Hl2|]. split; [exact Hh2|].
        right. right. right. lia. }
      destruct (retry_delayType pkg n err config (ext w2)) as [e3 delayTime] eqn:Hd.
      destruct (context_wait pkg delayTime e3) as [e4 done].
      set (w3 := {| ext := e4; log := log w2;
                    calls := {| what := retry_wait delayTime; failed := done |}
                             :: calls w2 |}).
      assert (Hl3 : Linked pkg config (calls w3)).
      { unfold w3, w2. cbn [calls]. apply Linked_cons.
        - apply returnsRunningError_skip. reflexivity.
        - intros d [= <-]. exists n, err, (ext w2). rewrite Hd. split; reflexivity.
        - exact Hl2. }
      assert (Ha3 : attempts (calls w3) = S (attempts (calls w))).
      { unfold w3. cbn [calls]. unfold attempts in *.
        cbn [List.filter isAttempt what length]. exact Ha2. }
      destruct done as [ctxErr|].
      * cbn [fst]. split; [exact Hl3|]. split.
        -- eexists _, _. split; reflexivity.
        -- right. right. left. reflexivity.
      * destruct (IH (S n) (errorLog ++ [unpackUnrecoverable err]) w3 Hl3) as (L & H & X).
        -- eexists _, _. split; reflexivity.
        -- split; [exact L|]. split; [exact H|].
           rewrite Ha3 in X. replace (attempts (calls w) + S (S left''))%nat
             with (S (attempts (calls w)) + S left'')%nat by lia.
           exact X.
    + cbn [fst]. split; [exact Hl2|]. split; [exact Hh2|]. left. reflexivity.
Qed.

Lemma retry_Do_Linked (body : M E W (option error)) (config : retry_Config) w :
  attemptBody body ->
  Linked pkg config (calls w) ->
  match calls w with
  | before :: _ => failedRunning before = false
  | [] => True
  end ->
  Linked pkg config (calls (fst (retry_Do pkg body config w)))
  /\ (exists ev earlier,
        calls (fst (retry_Do pkg body config w)) = ev :: earlier
        /\ failedRunning ev = false)
  /\ ended (calls (fst (retry_Do pkg body config w)))
       (attempts (calls w) + Z.to_nat (Attempts config))%nat.
Proof.
  intros Hbody Hl Hb. unfold retry_Do, bind, call.
  destruct (context_Err pkg (ext w)) as [e1 [err|]].
  - unfold ret. cbn [fst calls]. split.
    + apply Linked_cons_skip; [reflexivity|exact Hb|exact Hl].
    + split; [eexists _, _; split; reflexivity|].
      right. right. left. reflexivity.
  - set (w1 := {| ext := e1; log := log w;
                  calls := {| what := retry_contextErr; failed := None |} :: calls w |}).
    destruct (retry_loop_Linked body config Hbody (Z.to_nat (Attempts config)) 0 [] w1)
      as (L & H & X).
    + unfold w1. cbn [calls]. apply Linked_cons_skip; [reflexivity|exact Hb|exact Hl].
    + eexists _, _. split; reflexivity.
    + split; [exact L|]. split; [exact H|].
      unfold w1 in X. unfold attempts in *. cbn [calls List.filter isAttempt what] in X.
      exact X.
Qed.

(** With a delay type that returns [delay] on [config], every attempt
    starts right after the check of the context or a wait of [delay]. *)
Lemma fixed_delay (config : retry_Config) (delay : Z) (trace : list (Event W)) :
  (forall n err e0, snd (retry_delayType pkg n err config e0) = delay) ->
  consecutive (waitsDelayOf pkg config) trace ->
  precededBy failedAttempt isWait trace = true ->
  precededBy beforeAttempt isRunning trace = true ->
  precededBy (startOfAttempt delay) isRunning trace = true.
Proof.
  intros Hfix. induction trace as [|ev earlier IH]; [reflexivity|].
  intros [_ Hc] Hw Hr. cbn [precededBy] in Hw, Hr |- *.
  apply andb_prop in Hw as [_ Hw]. apply andb_prop in Hr as [Hev Hr].
  rewrite (IH Hc Hw Hr), andb_true_r.
  destruct (isRunning ev); [|reflexivity].
  destruct earlier as [|before rest]; [discriminate Hev|].
  unfold beforeAttempt in Hev. unfold startOfAttempt.
  apply andb_prop in Hev as [Hkind ->]. rewrite andb_true_r.
  destruct (isContextErr before); [reflexivity|]. cbn [orb] in Hkind |- *.
  unfold isWait in Hkind. unfold isWaitOf.
  destruct (what before) eqn:Hwhat; try discriminate Hkind.
  destruct rest as [|before' rest'].
  - cbn [precededBy] in Hw. unfold isWait in Hw. rewrite Hwhat in Hw. discriminate Hw.
  - destruct Hc as [Hc _]. destruct (Hc _ Hwhat) as (n & err & e0 & _ & ->).
    rewrite Hfix. apply Z.eqb_refl.
Qed.

(** *** [Run] *)

(** An attempt in which [Running()] succeeds and [reconcile] returns an
    error calls [Failed()] next, and returns an error. *)
Lemma retryable_flips r model (statusUpdater : U) w w1 w2 (err : error) :
  call call_Running (Updater_Running pkg statusUpdater) w = (w1, None) ->
  reconcile CRD pkg r model w1 = (w2, Some err) ->
  exists w3 f err',
    retryable CRD pkg r model statusUpdater w = (w3, Some err')
    /\ calls w3 = {| what := call_Failed; failed := f |} :: calls w2
    /\ err' = match f with Some callbackErr => callbackErr | None => err end.
Proof.
  intros Hrun Hrec. unfold retryable. unfold bind at 1. rewrite Hrun. cbv beta iota.
  unfold bind at 1. rewrite Hrec. cbv beta iota. unfold bind, call, ret.
  destruct (Updater_Failed pkg statusUpdater (ext w2)) as [e3 [callbackErr|]];
    eexists _, _, _; repeat split.
Qed.

(** An attempt in which [Running()] returns an error ends with this call
    and returns its error: [reconcile] does not run and [Failed()] is not
    called. *)
Lemma retryable_returns r model (statusUpdater : U) w w1 (err : error) :
  call call_Running (Updater_Running pkg statusUpdater) w = (w1, Some err) ->
  retryable CRD pkg r model statusUpdater w = (w1, Some err).
Proof. intros Hrun. unfold retryable, bind. rewrite Hrun. reflexivity. Qed.

(** [Run], by the result of creating the status updater and of the retry
    loop. *)
Lemma Run_cases r model (callback : CB) w :
  let '(w1, s) :=
    callv call_NewStatusUpdater
      (status_NewStatusUpdater pkg callback (debug r)
         {| st_Interval := st_Interval (statusUpdaterConfig r);
            st_MaxRetries := st_MaxRetries (statusUpdaterConfig r);
            st_RetryDelay := st_RetryDelay (statusUpdaterConfig r) |}) w in
  match s with
  | inr err => Run CRD pkg r model callback w = (w1, Some err)
  | inl statusUpdater =>
      let '(w2, result) :=
        retry_Do pkg (retryable CRD pkg r model statusUpdater)
          {| Attempts := uint (maxRetries r); Delay := retryDelay r;
             LastErrorOnly := false |} w1 in
      exists e3 l f,
        Run CRD pkg r model callback w
        = ({| ext := e3; log := l;
              calls := {| what := match result with
                                  | None => call_Success
                                  | Some _ => call_Error
                                  end;
                          failed := f |} :: calls w2 |},
           match f with
           | Some callbackErr => Some callbackErr
           | None => result
           end)
  end.
Proof.
  destruct (callv call_NewStatusUpdater _ w) as [w1 [statusUpdater|err]] eqn:Hs.
  - destruct (retry_Do pkg _ _ w1) as [w2 result] eqn:Hr.
    unfold Run. unfold bind at 1. rewrite Hs. cbv beta iota.
    unfold bind at 1. rewrite Hr. cbv beta iota.
    destruct result as [err|]; unfold bind, Warn, Info, logger, call, ret;
      cbn [ext log calls].
    + destruct (Updater_Error pkg statusUpdater (ext w2)) as [e3 f].
      exists e3; eexists; exists f. destruct f; reflexivity.
    + destruct (Updater_Success pkg statusUpdater (ext w2)) as [e3 f].
      exists e3; eexists; exists f. destruct f; reflexivity.
  - unfold Run. unfold bind at 1. rewrite Hs. reflexivity.
Qed.

Lemma uint_range (x : Z) : 0 <= uint x < 2 ^ 64.
Proof. unfold uint. apply Z.mod_pos_bound. reflexivity. Qed.

Lemma uint_le (x : Z) : 0 <= x -> uint x <= x.
Proof. intros Hx. unfold uint. apply Z.mod_le; [exact Hx | reflexivity]. Qed.

Lemma existsb_false_In (Qr : Event W -> bool) (trace : list (Event W)) (ev : Event W) :
  existsb Qr trace = false -> In ev trace -> Qr ev = false.
Proof.
  intros Hex Hin. destruct (Qr ev) eqn:Hq; [|reflexivity].
  rewrite <- Hex. symmetry. apply existsb_exists. exists ev. split; assumption.
Qed.

(** The record of calls of one [Run] from a fresh world.  Either the
    status updater could not be created, and that is the only call; or
    the last call is [Success()] or [Error()], by the result of the retry
    loop, after a record that is [Good] and [Linked], has at most
    [uint(maxRetries)] attempts, all of them unless the loop ended for
    another reason, and has a succeeded attempt exactly when the loop
    returned nil. *)
Lemma Run_shape r model (callback : CB) (e : E) :
  (exists (e1 : E) (err : error),
      status_NewStatusUpdater pkg callback (debug r)
        {| st_Interval := st_Interval (statusUpdaterConfig r);
           st_MaxRetries := st_MaxRetries (statusUpdaterConfig r);
           st_RetryDelay := st_RetryDelay (statusUpdaterConfig r) |} e = (e1, inr err)
      /\ calls (fst (Run CRD pkg r model callback (init e)))
         = [ {| what := call_NewStatusUpdater; failed := Some err |} ]
      /\ snd (Run CRD pkg r model callback (init e)) = Some err)
  \/ (exists (e1 : E) (statusUpdater : U) (result f : option error)
             (earlier : list (Event W)),
      status_NewStatusUpdater pkg callback (debug r)
        {| st_Interval := st_Interval (statusUpdaterConfig r);
           st_MaxRetries := st_MaxRetries (statusUpdaterConfig r);
           st_RetryDelay := st_RetryDelay (statusUpdaterConfig r) |} e
        = (e1, inl statusUpdater)
      /\ calls (fst (Run CRD pkg r model callback (init e)))
         = {| what := match result with
                      | None => call_Success
                      | Some _ => call_Error
                      end;
              failed := f |} :: earlier
      /\ snd (Run CRD pkg r model callback (init e))
         = match f with
           | Some callbackErr => Some callbackErr
           | None => result
           end
      /\ Good earlier
      /\ (attempts earlier <= Z.to_nat (uint (maxRetries r)))%nat
      /\ existsb succeededAttempt earlier
         = match result with
           | None => true
           | Some _ => false
           end
      /\ Linked pkg {| Attempts := uint (maxRetries r); Delay := retryDelay r;
                       LastErrorOnly := false |} earlier
      /\ (exists ev earlier', earlier = ev :: earlier' /\ failedRunning ev = false)
      /\ ended earlier (Z.to_nat (uint (maxRetries r)))).
Proof.
  pose proof (Run_cases r model callback (init e)) as HR.
  unfold callv in HR. cbn [ext init] in HR.
  destruct (status_NewStatusUpdater pkg callback (debug r) _ e)
    as [e1 [statusUpdater|err]] eqn:Hsu.
  - right.
    set (w1 := {| ext := e1; log := log (init e);
                  calls := {| what := call_NewStatusUpdater;
                              failed := errOf (inl statusUpdater : U + error) |}
                           :: calls (init e) |}) in *.
    set (config := {| Attempts := uint (maxRetries r); Delay := retryDelay r;
                      LastErrorOnly := false |}) in *.
    destruct (retry_Do_Good (retryable CRD pkg r model statusUpdater) config w1)
      as (G & A & X).
    + apply retryable_attemptBody.
    + reflexivity.
    + unfold w1. cbn [calls]. apply Good_cons_quiet; [reflexivity|apply Good_nil].
    + reflexivity.
    + destruct (retry_Do_Linked (retryable CRD pkg r model statusUpdater) config w1)
        as (L & H & N).
      * apply retryable_attemptBody.
      * unfold w1. cbn [calls]. apply Linked_cons_skip; [reflexivity|exact I|].
        apply Linked_nil.
      * reflexivity.
      * destruct (retry_Do pkg (retryable CRD pkg r model statusUpdater) config w1)
          as [w2 result].
        destruct HR as (e3 & l & f & HR). rewrite HR. clear HR.
        cbn [fst snd calls] in *.
        exists e1, statusUpdater, result, f, (calls w2).
        repeat split; try reflexivity; try apply G; try apply L; assumption.
  - left. exists e1, err. rewrite HR. repeat split.
Qed.


(** C10. [Run] can return a non-nil error although the reconciliation
    succeeded: when [Success()] was called and returned an error, an
    attempt had succeeded and [Run] returns the error of [Success()].
    And when [Error()] was called and returned an error, no attempt had
    succeeded and [Run] returns the error of [Error()], not the errors
    of the reconciliation. *)
Theorem Run_returns_callback_error r model (callback : CB) (e : E) (callbackErr : error) :
  let run := Run CRD pkg r model callback (init e) in
  let trace := calls (fst run) in
  (In {| what := call_Success; failed := Some callbackErr |} trace ->
   existsb succeededAttempt trace = true /\ snd run = Some callbackErr)
  /\ (In {| what := call_Error; failed := Some callbackErr |} trace ->
      existsb succeededAttempt trace = false /\ snd run = Some callbackErr).
Proof.
  intros run trace. subst trace run.
  destruct (Run_shape r model callback e)
    as [(e1 & err & Hsu & -> & ->)
       |(e1 & statusUpdater & result & f & earlier & Hsu & -> & -> & G & A & X & _)].
  - split; intros [Hev|[]]; discriminate Hev.
  - destruct G as [G1 G2 G3 G4 G5]. split; intros [Hev|Hin].
    + destruct result; [discriminate Hev|]. injection Hev as ->.
      cbn [existsb]. rewrite X. split; reflexivity.
    + pose proof (existsb_false_In _ _ _ G4 Hin) as Hq. discriminate Hq.
    + destruct result; [|discriminate Hev]. injection Hev as ->.
      cbn [existsb]. rewrite X. split; reflexivity.
    + pose proof (existsb_false_In _ _ _ G5 Hin) as Hq. discriminate Hq.
Qed.

End RunnerSpec.

(** C9 on the chart provider that returns a CRD manifest and a chart
    manifest although no CRDs were requested: both are in the bundle. *)
Lemma renderManifest_bundle_witness :
  snd (renderManifest "crd" (Mem.reconciler 3 None) Mem.istio
         (init (Mem.env 0 9) : World Mem.MemEnv string))
  = inl ("---" +:+ nl +:+ "# Manifest of crd 'istio'" +:+ nl
         +:+ "kind: CustomResourceDefinition" +:+ nl
         +:+ "---" +:+ nl +:+ "# Manifest of helmChart 'istio'" +:+ nl
         +:+ "kind: Deployment" +:+ nl).
Proof.
  exact (renderManifest_bundle "crd" (Mem.reconciler 3 None) Mem.istio
           (init (Mem.env 0 9)) (Mem.env 0 9) [Mem.crdManifest; Mem.chartManifest]
           eq_refl).
Defined.

(** C5 on the same chart provider: the CRD manifest is logged and the
    rendering returns its bundle. *)
Lemma renderManifest_unrequested_CRD_witness :
  exists (w' : World Mem.MemEnv string) bundle,
    renderManifest "crd" (Mem.reconciler 3 None) Mem.istio (init (Mem.env 0 9))
      = (w', inl bundle)
    /\ forall manifest,
         In manifest [Mem.crdManifest; Mem.chartManifest] ->
         Type_ manifest = "crd" ->
         In (illegalState manifest) (log w').
Proof.
  exact (renderManifest_unrequested_CRD "crd" (Mem.reconciler 3 None) Mem.istio
           (init (Mem.env 0 9)) (Mem.env 0 9) [Mem.crdManifest; Mem.chartManifest]
           eq_refl eq_refl).
Defined.

(** C7 on a cluster that reports a ConfigMap and a Deployment: only the
    Deployment is added to the tracker, and watching succeeds. *)
Lemma trackProgress_skips_unwatchable_witness :
  Mem.tracked (ext (fst (trackProgress Mem.mem_packages (Mem.reconciler 3 None)
                           "bundle" "kubeconfig" (init (Mem.env 0 9)))))
    = [("Deployment", "istio-system", "istiod")]
  /\ snd (trackProgress Mem.mem_packages (Mem.reconciler 3 None)
            "bundle" "kubeconfig" (init (Mem.env 0 9))) = None
  /\ watchables Mem.mem_packages Mem.mem_resources
     = [("Deployment", "istio-system", "istiod")].
Proof.
  destruct (trackProgress_skips_unwatchable Mem.mem_packages (Mem.reconciler 3 None)
              "bundle" "kubeconfig" (init (Mem.env 0 9))
              (Mem.env 0 9) (Mem.env 0 9) (Mem.env 0 9) tt tt Mem.mem_resources
              eq_refl eq_refl eq_refl) as (Hwatch & _ & _).
  pose proof (f_equal fst Hwatch) as Hext. pose proof (f_equal snd Hwatch) as Herr.
  cbn [fst snd] in Hext, Herr. rewrite Hext, Herr. repeat split.
Defined.

(** C6 with a pre-install hook that fails: the attempt ends after three
    calls, the last of them the hook. *)
Lemma reconcile_preInstall_failure_witness :
  exists w',
    reconcile "crd" Mem.mem_packages (Mem.reconciler 2 (Some Mem.failingHook)) Mem.istio
      (init (Mem.env 0 9)) = (w', Some (errorString "hook failed"))
    /\ ext w' = Mem.env 0 9
    /\ calls w' = [ {| what := call_preInstallAction "1.0";
                       failed := Some (errorString "hook failed") |};
                    {| what := call_Clientset; failed := None |};
                    {| what := call_NewKubernetesClient "kubeconfig"; failed := None |} ]
    /\ (forall ev, In ev (calls w') -> isInstallCall ev = true -> In ev []).
Proof.
  exact (reconcile_preInstall_failure "crd" Mem.mem_packages
           (Mem.reconciler 2 (Some Mem.failingHook)) Mem.istio (init (Mem.env 0 9))
           (Mem.env 0 9) (Mem.env 0 9) (Mem.env 0 9) "kubeconfig" tt Mem.failingHook
           (errorString "hook failed") eq_refl eq_refl eq_refl eq_refl).
Defined.

(** C10 on two runs: one whose first attempt succeeds while the callback
    receiver takes only the notification of [Running()], and one whose two
    attempts fail while it takes all notifications but the last. *)
Lemma Run_returns_callback_error_witness :
  (existsb succeededAttempt (calls (fst (Mem.run 3 None (Mem.env 0 1)))) = true
   /\ snd (Mem.run 3 None (Mem.env 0 1)) = Some (errorString "callback failed"))
  /\ (existsb succeededAttempt (calls (fst (Mem.run 2 None (Mem.env 5 4)))) = false
      /\ snd (Mem.run 2 None (Mem.env 5 4)) = Some (errorString "callback failed")).
Proof.
  split.
  - apply (proj1 (Run_returns_callback_error "crd" Mem.mem_packages
                    (Mem.reconciler 3 None) Mem.istio tt (Mem.env 0 1)
                    (errorString "callback failed"))).
    vm_compute. left. reflexivity.
  - apply (proj2 (Run_returns_callback_error "crd" Mem.mem_packages
                    (Mem.reconciler 2 None) Mem.istio tt (Mem.env 5 4)
                    (errorString "callback failed"))).
    vm_compute. left. reflexivity.
Defined.



(** A run whose first deployment fails and whose second succeeds: the
    calls other than those of [reconcile], oldest first, and the result. *)
Example Run_one_retry :
  List.filter (fun ev => negb (isReconcileCall ev))
    (rev (calls (fst (Mem.run 3 None (Mem.env 1 9)))))
  = [ {| what := call_NewStatusUpdater; failed := None |};
      {| what := retry_contextErr; failed := None |};
      {| what := call_Running; failed := None |};
      {| what := call_Failed; failed := None |};
      {| what := retry_attempt 0; failed := Some (errorString "connection refused") |};
      {| what := retry_wait 1000; failed := None |};
      {| what := call_Running; failed := None |};
      {| what := retry_attempt 1; failed := None |};
      {| what := call_Success; failed := None |} ]
  /\ snd (Mem.run 3 None (Mem.env 1 9)) = None
  /\ Mem.notified (ext (fst (Mem.run 3 None (Mem.env 1 9))))
     = ["success"; "running"; "failed"; "running"].
Proof. repeat split; vm_compute; reflexivity. Qed.

End RunnerSpec.
